(** * SwingPal: [generate_graphs.py]

    A shallow embedding of the CSV parser, the derivation engine (net
    acceleration, net jerk, angular rates), the time normalisation and the
    command-line driver of [generate_graphs.py], together with the properties
    its specification states about them.

    Data model.
    - A numpy [float64] array is a [list float], where [float] is the kernel's
      primitive IEEE 754 binary64 type; [+], [-], [*], [/] and [sqrt] are the
      correctly rounded IEEE operations, with NaN and the infinities.
    - An input file is the list of records [csv.reader] yields for it, each a
      list of field strings; the first record is the header line.
    - Python exceptions are an enumeration [exn]; a computation that may raise
      returns a [result].
    - The parser's seven accumulator lists are an explicit [store] threaded
      through a state-and-exception monad in which, as in Python, what was
      appended before an exception stays appended.
    - The process is a function from its arguments and the file system to an
      exit status and the list of what it did: messages, files opened, the
      file written.

    Outside the model: how [csv.reader] splits and decodes text into records
    (the file is taken as the records it yields).  matplotlib is a
    collaborator the program calls: whether its calls return or raise, and
    under which name [savefig] stores the image, is not decided here; the
    two blocks of calls are parameters that may raise, and the record of a
    run lists the calls made, not the files matplotlib leaves behind. *)

From Stdlib Require Import ZArith String Ascii List Bool Lia Floats.
Import ListNotations.

(** ** Exceptions and results *)

Inductive exn : Type :=
| StopIteration
| ValueError
| IndexError
| OSError.

Inductive result (A : Type) : Type :=
| Ok (a : A)
| Raise (e : exn).

Arguments Ok {A} a.
Arguments Raise {A} e.

Definition rbind {A B : Type} (r : result A) (k : A -> result B) : result B :=
  match r with
  | Ok a => k a
  | Raise e => Raise e
  end.

Declare Scope result_scope.
Delimit Scope result_scope with result.
Notation "x <- r ;; k" := (rbind r (fun x => k))
  (at level 61, r at next level, right associativity) : result_scope.
Notation "' p <- r ;; k" := (rbind r (fun x => let 'p := x in k))
  (at level 61, p pattern, r at next level, right associativity) : result_scope.

(** ** numpy on one-dimensional [float64] arrays *)

Module np.

Definition array : Type := list float.

(** Two arrays of one length, combined entry by entry. *)
Definition zip_with (f : float -> float -> float) (a b : array) : array :=
  map (fun p => f (fst p) (snd p)) (combine a b).

(** Elementwise binary operation with numpy's broadcasting rule for two
    one-dimensional operands: equal lengths pair up, a length-1 operand is
    stretched, anything else is a [ValueError]. *)
Definition broadcast (f : float -> float -> float) (a b : array)
  : result array :=
  if Nat.eqb (length a) (length b) then
    Ok (zip_with f a b)
  else
    match a, b with
    | [x], _ => Ok (map (f x) b)
    | _, [y] => Ok (map (fun x => f x y) a)
    | _, _ => Raise ValueError
    end.

Definition add : array -> array -> result array := broadcast PrimFloat.add.
Definition divide : array -> array -> result array := broadcast PrimFloat.div.

(** [a - c] for a scalar [c]. *)
Definition sub_scalar (a : array) (c : float) : array :=
  map (fun x => PrimFloat.sub x c) a.

(** [a ** 2]: numpy evaluates the integer power 2 as [square], [x * x]. *)
Definition square (a : array) : array :=
  map (fun x => PrimFloat.mul x x) a.

Definition sqrt (a : array) : array := map PrimFloat.sqrt a.

(** [np.diff(a)]: [a[1:] - a[:-1]], empty for fewer than two elements. *)
Fixpoint diff (a : array) : array :=
  match a with
  | x :: (y :: _) as rest => PrimFloat.sub y x :: diff rest
  | _ => []
  end.

(** [a[1:]]. *)
Definition from1 (a : array) : array := tl a.

(** [a[0]]: an [IndexError] on an empty array. *)
Definition first (a : array) : result float :=
  match a with
  | x :: _ => Ok x
  | [] => Raise IndexError
  end.

End np.

(** ** The parser: [parse_csv] *)

(** A record of the CSV file: the list of its fields. *)
Definition row : Type := list string.

(** What a path of the file system holds.  [Path.exists] is true for both;
    [open(..., 'r')] succeeds on a regular file only. *)
Inductive node : Type :=
| Directory
| RegularFile (records : list row).

Definition filesystem : Type := string -> option node.

(** The seven accumulator lists of [parse_csv]. *)
Record store : Type := mkStore {
  times : list float;
  yaws : list float;
  pitches : list float;
  rolls : list float;
  accel_x : list float;
  accel_y : list float;
  accel_z : list float
}.

Definition empty_store : store := mkStore [] [] [] [] [] [] [].

(** The seven arrays [parse_csv] returns, in its order:
    times, yaws, pitches, rolls, accel_x, accel_y, accel_z. *)
Definition dataset : Type :=
  (np.array * np.array * np.array * np.array * np.array * np.array * np.array)%type.

Definition arrays_of (st : store) : dataset :=
  (times st, yaws st, pitches st, rolls st, accel_x st, accel_y st, accel_z st).

(** Statements over the accumulators: a store transformer that may raise and
    keeps what it has mutated when it does. *)
Definition M (A : Type) : Type := store -> result A * store.

Definition ret {A : Type} (a : A) : M A := fun st => (Ok a, st).

Definition bind {A B : Type} (m : M A) (k : A -> M B) : M B :=
  fun st =>
    match m st with
    | (Ok a, st') => k a st'
    | (Raise e, st') => (Raise e, st')
    end.

Definition raise {A : Type} (e : exn) : M A := fun st => (Raise e, st).

Declare Scope stmt_scope.
Delimit Scope stmt_scope with stmt.
Notation "x <- m ;; k" := (bind m (fun x => k))
  (at level 61, m at next level, right associativity) : stmt_scope.
Notation "m ;; k" := (bind m (fun _ => k))
  (at level 61, right associativity) : stmt_scope.

Definition append_times (x : float) : M unit :=
  fun st => (Ok tt, mkStore (times st ++ [x]) (yaws st) (pitches st) (rolls st)
                            (accel_x st) (accel_y st) (accel_z st)).
Definition append_yaws (x : float) : M unit :=
  fun st => (Ok tt, mkStore (times st) (yaws st ++ [x]) (pitches st) (rolls st)
                            (accel_x st) (accel_y st) (accel_z st)).
Definition append_pitches (x : float) : M unit :=
  fun st => (Ok tt, mkStore (times st) (yaws st) (pitches st ++ [x]) (rolls st)
                            (accel_x st) (accel_y st) (accel_z st)).
Definition append_rolls (x : float) : M unit :=
  fun st => (Ok tt, mkStore (times st) (yaws st) (pitches st) (rolls st ++ [x])
                            (accel_x st) (accel_y st) (accel_z st)).
Definition append_accel_x (x : float) : M unit :=
  fun st => (Ok tt, mkStore (times st) (yaws st) (pitches st) (rolls st)
                            (accel_x st ++ [x]) (accel_y st) (accel_z st)).
Definition append_accel_y (x : float) : M unit :=
  fun st => (Ok tt, mkStore (times st) (yaws st) (pitches st) (rolls st)
                            (accel_x st) (accel_y st ++ [x]) (accel_z st)).
Definition append_accel_z (x : float) : M unit :=
  fun st => (Ok tt, mkStore (times st) (yaws st) (pitches st) (rolls st)
                            (accel_x st) (accel_y st) (accel_z st ++ [x])).

Section Parser.

(** Python's builtin [float] on a string: [None] stands for the
    [ValueError] it raises on text that is not a floating-point literal.
    The parser is correct for any such function; [float_of_str] below is a
    concrete one for the examples. *)
Variable py_float : string -> option float.

(** [float(s)]. *)
Definition to_float (s : string) : M float :=
  match py_float s with
  | Some x => ret x
  | None => raise ValueError
  end.

(** [row[i]] for [i >= 0]. *)
Definition item (r : row) (i : nat) : M string :=
  match nth_error r i with
  | Some s => ret s
  | None => raise IndexError
  end.

Local Open Scope stmt_scope.

(** The body of the [try] block, lines 34-49. *)
Definition try_block (r : row) : M unit :=
  f0 <- item r 0 ;; time_ms <- to_float f0 ;;
  let time_s := PrimFloat.div time_ms 1000%float in
  f1 <- item r 1 ;; yaw <- to_float f1 ;;
  f2 <- item r 2 ;; pitch <- to_float f2 ;;
  f3 <- item r 3 ;; roll <- to_float f3 ;;
  f4 <- item r 4 ;; ax <- to_float f4 ;;
  f5 <- item r 5 ;; ay <- to_float f5 ;;
  f6 <- item r 6 ;; az <- to_float f6 ;;
  append_times time_s ;;
  append_yaws yaw ;;
  append_pitches pitch ;;
  append_rolls roll ;;
  append_accel_x ax ;;
  append_accel_y ay ;;
  append_accel_z az.

(** One iteration of the [for] loop, lines 32-51: the length test, and the
    [except (ValueError, IndexError): continue] around the [try] block. *)
Definition loop_body (r : row) : M unit :=
  fun st =>
    if Nat.leb 7 (length r) then
      match try_block r st with
      | (Raise ValueError, st') => (Ok tt, st')
      | (Raise IndexError, st') => (Ok tt, st')
      | other => other
      end
    else (Ok tt, st).

(** [for row in reader: ...] *)
Fixpoint for_rows (rows : list row) : M unit :=
  match rows with
  | [] => ret tt
  | r :: rest => loop_body r ;; for_rows rest
  end.

Local Close Scope stmt_scope.

(** The body of [with open(filename, 'r') as f], on the records of the
    file: [next(reader)] raises [StopIteration] when there is no first
    record. *)
Definition parse_records (records : list row) : result dataset :=
  match records with
  | [] => Raise StopIteration
  | _header :: rows =>
      match for_rows rows empty_store with
      | (Ok _, st) => Ok (arrays_of st)
      | (Raise e, _) => Raise e
      end
  end.

Definition parse_csv (fs : filesystem) (filename : string) : result dataset :=
  match fs filename with
  | Some (RegularFile records) => parse_records records
  | Some Directory => Raise OSError
  | None => Raise OSError
  end.

End Parser.

(** ** The derivation engine *)

Local Open Scope result_scope.

(** [np.sqrt(ax**2 + ay**2 + az**2)] *)
Definition calculate_net_acceleration (ax ay az : np.array) : result np.array :=
  s <- np.add (np.square ax) (np.square ay) ;;
  s' <- np.add s (np.square az) ;;
  Ok (np.sqrt s').

(** [np.diff(net_acc) / np.diff(times)], with [times[1:]]. *)
Definition calculate_net_jerk (net_acc times : np.array)
  : result (np.array * np.array) :=
  jerk <- np.divide (np.diff net_acc) (np.diff times) ;;
  let jerk_times := np.from1 times in
  Ok (jerk, jerk_times).

Definition calculate_angular_velocities (yaws pitches rolls times : np.array)
  : result (np.array * np.array * np.array * np.array) :=
  yaw_rate <- np.divide (np.diff yaws) (np.diff times) ;;
  pitch_rate <- np.divide (np.diff pitches) (np.diff times) ;;
  roll_rate <- np.divide (np.diff rolls) (np.diff times) ;;
  let deriv_times := np.from1 times in
  Ok (yaw_rate, pitch_rate, roll_rate, deriv_times).

(** ** Rendering and the driver *)

(** One [plot(x, y, label=...)] call. *)
Record line : Type := mkLine {
  line_label : string;
  line_x : np.array;
  line_y : np.array
}.

(** One [plt.subplot(5, 1, k)] with its title, axis labels and lines. *)
Record subplot : Type := mkSubplot {
  sp_title : string;
  sp_xlabel : string;
  sp_ylabel : string;
  sp_lines : list line;
  sp_fill_between : list (np.array * np.array)
}.

(** The figure handed to matplotlib: the subplots, top to bottom. *)
Definition figure : Type := list subplot.

(** Everything [generate_graphs] derives before it starts drawing,
    lines 84-92. *)
Record derived : Type := mkDerived {
  d_net_acc : np.array;
  d_jerk : np.array;
  d_yaw_rate : np.array;
  d_pitch_rate : np.array;
  d_roll_rate : np.array;
  d_times_norm : np.array;
  d_jerk_times_norm : np.array;
  d_deriv_times_norm : np.array
}.

(** Lines 84-92 of [generate_graphs]. *)
Definition derive (d : dataset) : result derived :=
  let '(times, yaws, pitches, rolls, ax, ay, az) := d in
  net_acc <- calculate_net_acceleration ax ay az ;;
  '(jerk, jerk_times) <- calculate_net_jerk net_acc times ;;
  '(yaw_rate, pitch_rate, roll_rate, deriv_times) <-
     calculate_angular_velocities yaws pitches rolls times ;;
  start_time <- np.first times ;;
  let times_norm := np.sub_scalar times start_time in
  let jerk_times_norm := np.sub_scalar jerk_times start_time in
  let deriv_times_norm := np.sub_scalar deriv_times start_time in
  Ok (mkDerived net_acc jerk yaw_rate pitch_rate roll_rate
                times_norm jerk_times_norm deriv_times_norm).

(** Lines 101-152: the five charts, in their order. *)
Definition charts (d : dataset) (v : derived) : figure :=
  let '(_, yaws, pitches, rolls, ax, ay, az) := d in
  [ mkSubplot "Net Acceleration vs Time" "Time (s)" "Acceleration (m/s²)"
      [ mkLine "Net Acceleration" (d_times_norm v) (d_net_acc v) ]
      [ (d_times_norm v, d_net_acc v) ];
    mkSubplot "Net Jerk vs Time" "Time (s)" "Jerk (m/s³)"
      [ mkLine "Net Jerk" (d_jerk_times_norm v) (d_jerk v) ]
      [ (d_jerk_times_norm v, d_jerk v) ];
    mkSubplot "Accelerations (X, Y, Z) vs Time" "Time (s)" "Acceleration (m/s²)"
      [ mkLine "Accel X" (d_times_norm v) ax;
        mkLine "Accel Y" (d_times_norm v) ay;
        mkLine "Accel Z" (d_times_norm v) az ]
      [];
    mkSubplot "Angles (Yaw, Pitch, Roll) vs Time" "Time (s)" "Angle (degrees)"
      [ mkLine "Yaw" (d_times_norm v) yaws;
        mkLine "Pitch" (d_times_norm v) pitches;
        mkLine "Roll" (d_times_norm v) rolls ]
      [];
    mkSubplot "Angular Velocities (Yaw, Pitch, Roll) vs Time" "Time (s)"
      "Angular Velocity (deg/s)"
      [ mkLine "Yaw Rate" (d_deriv_times_norm v) (d_yaw_rate v);
        mkLine "Pitch Rate" (d_deriv_times_norm v) (d_pitch_rate v);
        mkLine "Roll Rate" (d_deriv_times_norm v) (d_roll_rate v) ]
      [] ].

(** What the process does to the outside world, in order: a line printed, a
    file opened for reading, the drawing calls made on a figure, a call of
    [plt.savefig] with a file name and the figure, the traceback of an
    exception nobody caught. *)
Inductive event : Type :=
| Stdout (text : string)
| OpenRead (path : string)
| Draw (fig : figure)
| Savefig (path : string) (fig : figure)
| Traceback (e : exn).

Section Driver.

Variable py_float : string -> option float.

(** matplotlib.  [plt_draw] stands for the calls of lines 95-155 (the figure,
    the style, the five subplots with their lines, [tight_layout]) on the
    data of the charts: they return, or one of them raises.  [plt_savefig]
    stands for [plt.savefig(output_file, ...)] and [plt.close()], lines
    158-159: they return, or raise.  Which file [savefig] writes for a given
    name is matplotlib's business. *)
Variable plt_draw : figure -> result unit.
Variable plt_savefig : string -> figure -> result unit.

(** [generate_graphs(input_file, output_file)]: its return value, or the
    exception that leaves it, and what it did up to there. *)
Definition generate_graphs (fs : filesystem) (input_file output_file : string)
  : result bool * list event :=
  match parse_csv py_float fs input_file with
  | Raise e => (Raise e, [OpenRead input_file])
  | Ok d =>
      let '(times, _, _, _, _, _, _) := d in
      if Nat.eqb (length times) 0 then
        (Ok false,
         [OpenRead input_file; Stdout "Error: No valid data found in CSV file"])
      else
        match derive d with
        | Raise e => (Raise e, [OpenRead input_file])
        | Ok v =>
            let fig := charts d v in
            match plt_draw fig with
            | Raise e => (Raise e, [OpenRead input_file; Draw fig])
            | Ok _ =>
                match plt_savefig output_file fig with
                | Raise e =>
                    (Raise e,
                     [OpenRead input_file; Draw fig; Savefig output_file fig])
                | Ok _ =>
                    (Ok true,
                     [OpenRead input_file; Draw fig; Savefig output_file fig;
                      Stdout ("Graphs saved to " ++ output_file)])
                end
            end
        end
  end.

(** The [__main__] block: the exit status of the process and what it did.
    An exception nobody catches ends the process with a traceback and
    status 1. *)
Definition main (argv : list string) (fs : filesystem) : nat * list event :=
  match argv with
  | [_; input_file; output_file] =>
      match fs input_file with
      | None =>
          (1, [Stdout ("Error: Input file '" ++ input_file ++ "' not found")])
      | Some _ =>
          match generate_graphs fs input_file output_file with
          | (Ok success, tr) => (if success then 0 else 1, tr)
          | (Raise e, tr) => (1, tr ++ [Traceback e])
          end
      end
  | _ =>
      (1, [Stdout "Usage: python generate_graphs.py <input.csv> <output.png>"])
  end.

End Driver.

(** ** A concrete [float(str)] *)

(** Python's [float] on ASCII text: surrounding whitespace is dropped, then
    an optional sign and either [inf], [infinity] or [nan] in any letter
    case, or a decimal literal (digits, optionally grouped by single
    underscores, an optional fraction, an optional exponent), rounded to the
    nearest binary64, ties to even. *)
Module PyFloat.

Definition is_space (c : ascii) : bool :=
  let n := nat_of_ascii c in
  (Nat.leb 9 n && Nat.leb n 13) || Nat.eqb n 32.

Definition is_digit (c : ascii) : bool :=
  let n := nat_of_ascii c in Nat.leb 48 n && Nat.leb n 57.

Definition digit_value (c : ascii) : Z := Z.of_nat (nat_of_ascii c - 48).

Definition lower (c : ascii) : ascii :=
  let n := nat_of_ascii c in
  if Nat.leb 65 n && Nat.leb n 90 then ascii_of_nat (n + 32) else c.

Fixpoint lstrip (s : list ascii) : list ascii :=
  match s with
  | c :: rest => if is_space c then lstrip rest else s
  | [] => []
  end.

Definition strip (s : list ascii) : list ascii :=
  rev (lstrip (rev (lstrip s))).

(** An optional sign: whether it was [-], and what follows it. *)
Definition sign (s : list ascii) : bool * list ascii :=
  match s with
  | "-"%char :: rest => (true, rest)
  | "+"%char :: rest => (false, rest)
  | _ => (false, s)
  end.

(** A run of digits, single underscores allowed between two digits: the
    value read so far, how many digits were read, and what follows. *)
Fixpoint digits (s : list ascii) (acc : Z) (n : nat) : Z * nat * list ascii :=
  match s with
  | c :: rest =>
      if is_digit c then digits rest (10 * acc + digit_value c)%Z (S n)
      else if Ascii.eqb c "_"%char && Nat.ltb 0 n then
        match rest with
        | d :: _ => if is_digit d then digits rest acc n else (acc, n, s)
        | [] => (acc, n, s)
        end
      else (acc, n, s)
  | [] => (acc, n, s)
  end.

(** A decimal literal as [mantissa * 10 ^ exponent]. *)
Definition decimal (s : list ascii) : option (Z * Z) :=
  let '(ip, ni, s1) := digits s 0%Z 0 in
  let '(fp, nf, s2) :=
    match s1 with
    | "."%char :: t => digits t 0%Z 0
    | _ => (0%Z, 0, s1)
    end in
  if Nat.eqb (ni + nf) 0 then None
  else
    let mant := (ip * 10 ^ Z.of_nat nf + fp)%Z in
    match s2 with
    | [] => Some (mant, (- Z.of_nat nf)%Z)
    | c :: t =>
        if Ascii.eqb (lower c) "e"%char then
          let '(eneg, t') := sign t in
          let '(ev, ne, s3) := digits t' 0%Z 0 in
          match ne, s3 with
          | S _, [] =>
              Some (mant, ((if eneg then - ev else ev) - Z.of_nat nf)%Z)
          | _, _ => None
          end
        else None
    end.

(** [(-1)^neg * m * 10^e], correctly rounded. *)
Definition round_decimal (neg : bool) (m e : Z) : spec_float :=
  match m with
  | Zpos p =>
      if (0 <=? e)%Z then
        binary_normalize prec emax
          (if neg then - (Zpos p * 10 ^ e) else Zpos p * 10 ^ e) 0 false
      else
        let '(q, e', l) :=
          SFdiv_core_binary prec emax (Zpos p) 0 (10 ^ (- e)) 0 in
        binary_round_aux prec emax neg q e' l
  | _ => S754_zero neg
  end.

Definition word (s : list ascii) : string :=
  string_of_list_ascii (map lower s).

Definition float_of_str (s : string) : option float :=
  let '(neg, body) := sign (strip (list_ascii_of_string s)) in
  if String.eqb (word body) "inf" || String.eqb (word body) "infinity" then
    Some (if neg then neg_infinity else infinity)
  else if String.eqb (word body) "nan" then Some nan
  else
    match decimal body with
    | Some (m, e) => Some (SF2Prim (round_decimal neg m e))
    | None => None
    end.

End PyFloat.

(** ** What the specification says the parser keeps *)

Section ParserSpec.

Variable py_float : string -> option float.

(** Field [i] of the record exists and is a floating-point literal. *)
Definition parses (r : row) (i : nat) : bool :=
  match nth_error r i with
  | Some s => match py_float s with Some _ => true | None => false end
  | None => false
  end.

(** The row is kept: it has at least 7 fields and fields 0-6 all parse. *)
Definition kept (r : row) : bool :=
  Nat.leb 7 (length r) && forallb (parses r) (seq 0 7).

(** The number field [i] of a kept record stands for. *)
Definition value (r : row) (i : nat) : float :=
  match nth_error r i with
  | Some s => match py_float s with Some x => x | None => nan end
  | None => nan
  end.

(** The stored time of a kept record: milliseconds to seconds. *)
Definition seconds (r : row) : float := PrimFloat.div (value r 0) 1000%float.

(** The seven arrays built from the kept records, in order. *)
Definition dataset_of (ks : list row) : dataset :=
  (map seconds ks, map (fun r => value r 1) ks, map (fun r => value r 2) ks,
   map (fun r => value r 3) ks, map (fun r => value r 4) ks,
   map (fun r => value r 5) ks, map (fun r => value r 6) ks).

(** The accumulators after one more kept record. *)
Definition push (r : row) (st : store) : store :=
  mkStore (times st ++ [seconds r]) (yaws st ++ [value r 1])
          (pitches st ++ [value r 2]) (rolls st ++ [value r 3])
          (accel_x st ++ [value r 4]) (accel_y st ++ [value r 5])
          (accel_z st ++ [value r 6]).

(** The accumulators after a list of kept records. *)
Definition push_all (ks : list row) (st : store) : store :=
  mkStore (times st ++ map seconds ks)
          (yaws st ++ map (fun r => value r 1) ks)
          (pitches st ++ map (fun r => value r 2) ks)
          (rolls st ++ map (fun r => value r 3) ks)
          (accel_x st ++ map (fun r => value r 4) ks)
          (accel_y st ++ map (fun r => value r 5) ks)
          (accel_z st ++ map (fun r => value r 6) ks).

End ParserSpec.

(** The seven lengths of a dataset agree with [n]. *)
Definition aligned (n : nat) (d : dataset) : Prop :=
  let '(t, y, p, r, ax, ay, az) := d in
  length t = n /\ length y = n /\ length p = n /\ length r = n /\
  length ax = n /\ length ay = n /\ length az = n.

(** ** IEEE 754 classes, on the specification side of a [float] *)

(** The value is a NaN. *)
Definition SF_is_nan (x : spec_float) : bool :=
  match x with
  | S754_nan => true
  | _ => false
  end.

(** The value is a zero or a finite non-zero number. *)
Definition SF_is_finite (x : spec_float) : bool :=
  match x with
  | S754_zero _ | S754_finite _ _ _ => true
  | _ => false
  end.

(** The value is [+0], a positive number or [+infinity]. *)
Definition SF_nonneg (x : spec_float) : bool :=
  match x with
  | S754_zero false | S754_finite false _ _ | S754_infinity false => true
  | _ => false
  end.

(** ** What the specification says the engine computes *)

(** The Euclidean norm of one sample's acceleration, in [float64]. *)
Definition norm3 (x y z : float) : float :=
  PrimFloat.sqrt (x * x + y * y + z * z)%float.

(** Entry [i] of an array, for [i] in range. *)
Definition at_ (a : np.array) (i : nat) : float := nth i a nan.

(** The finite-difference quotient of [series] over [times] at the pair
    of samples [i], [i+1]. *)
Definition quotient (series times : np.array) (i : nat) : float :=
  ((at_ series (i + 1) - at_ series i) / (at_ times (i + 1) - at_ times i))%float.

(** ** What a run did *)

(** The file names the run called [plt.savefig] with, in order. *)
Definition savefig_calls (tr : list event) : list string :=
  flat_map (fun e => match e with Savefig p _ => [p] | _ => [] end) tr.

(** The paths a run opened for reading. *)
Definition opens (tr : list event) : list string :=
  flat_map (fun e => match e with OpenRead p => [p] | _ => [] end) tr.

(** The calls the run made to matplotlib, drawing and saving. *)
Definition matplotlib_calls (tr : list event) : list event :=
  filter (fun e => match e with Draw _ | Savefig _ _ => true | _ => false end)
         tr.

(** matplotlib when every call returns. *)
Definition draw_returns : figure -> result unit := fun _ => Ok tt.
Definition savefig_returns : string -> figure -> result unit :=
  fun _ _ => Ok tt.

(** matplotlib when [tight_layout] raises [ValueError]. *)
Definition draw_raises : figure -> result unit := fun _ => Raise ValueError.

(** The time axes of a figure: per chart, the x-array of each line. *)
Definition x_axes (fig : figure) : list (list np.array) :=
  map (fun sp => map line_x (sp_lines sp)) fig.

(** ** Example inputs *)

Definition header : row :=
  ["time_ms"; "yaw"; "pitch"; "roll"; "accel_x"; "accel_y"; "accel_z"]%string.

(** A file system holding one regular file. *)
Definition one_file (path : string) (records : list row) : filesystem :=
  fun p => if String.eqb p path then Some (RegularFile records) else None.

(** The scenario of the specification: a header and two samples. *)
Definition scenario : list row :=
  [ header;
    ["0"; "0"; "0"; "0"; "1"; "0"; "0"];
    ["1000"; "90"; "0"; "0"; "0"; "1"; "0"] ]%string.

(** Three records, the middle one with a field that is no number. *)
Definition one_malformed : list row :=
  [ header;
    ["0"; "0"; "0"; "0"; "1"; "0"; "0"];
    ["500"; "45"; "0"; "0"; "oops"; "1"; "0"];
    ["1000"; "90"; "0"; "0"; "0"; "1"; "0"] ]%string.


(** A first timestamp that is an infinity. *)
Definition infinite_start : list row :=
  [ header; ["inf"; "0"; "0"; "0"; "1"; "0"; "0"] ]%string.

(** An acceleration field that is a NaN. *)
Definition nan_acceleration : list row :=
  [ header; ["0"; "0"; "0"; "0"; "nan"; "0"; "0"] ]%string.

(** Two adjacent samples with one timestamp. *)
Definition repeated_timestamp : list row :=
  [ header;
    ["1000"; "0"; "0"; "0"; "1"; "0"; "0"];
    ["1000"; "90"; "0"; "0"; "0"; "2"; "0"] ]%string.

(** ** Further vocabulary for the parser, the engine and the figure *)

(** The seven accumulator lists have one length. *)
Definition store_aligned (st : store) : Prop :=
  length (yaws st) = length (times st) /\
  length (pitches st) = length (times st) /\
  length (rolls st) = length (times st) /\
  length (accel_x st) = length (times st) /\
  length (accel_y st) = length (times st) /\
  length (accel_z st) = length (times st).

(** Two datasets one after the other, channel by channel. *)
Definition concat_dataset (d1 d2 : dataset) : dataset :=
  let '(t1, y1, p1, r1, ax1, ay1, az1) := d1 in
  let '(t2, y2, p2, r2, ax2, ay2, az2) := d2 in
  (t1 ++ t2, y1 ++ y2, p1 ++ p2, r1 ++ r2, ax1 ++ ax2, ay1 ++ ay2, az1 ++ az2).

(** The time array of a dataset. *)
Definition times_of (d : dataset) : np.array :=
  let '(t, _, _, _, _, _, _) := d in t.

(** A line [plot] accepts: as many x values as y values. *)
Definition line_ok (l : line) : Prop := length (line_x l) = length (line_y l).

(** A chart all of whose lines and filled areas pair arrays of one length. *)
Definition subplot_ok (sp : subplot) : Prop :=
  Forall line_ok (sp_lines sp) /\
  Forall (fun xy => length (fst xy) = length (snd xy)) (sp_fill_between sp).

(** The usage message of the [__main__] block. *)
Definition usage : string :=
  "Usage: python generate_graphs.py <input.csv> <output.png>".

(** * Supporting facts *)

(** ** The parser *)

Section ParserFacts.

Variable py_float : string -> option float.

(** Case analysis on what [float] answers for each field in turn. *)
Ltac field_cases :=
  repeat match goal with
         | |- context [match py_float ?s with Some _ => _ | None => _ end] =>
             destruct (py_float s)
         end.

(** The [try] block, case by case: on a kept record it completes, with one
    entry appended to each list; on any other record it raises a
    [ValueError] or an [IndexError] and the lists are as they were. *)
Lemma try_block_spec (r : row) (st : store) :
  (kept py_float r = true /\
   try_block py_float r st = (Ok tt, push py_float r st)) \/
  (kept py_float r = false /\
   exists e, (e = ValueError \/ e = IndexError) /\
             try_block py_float r st = (Raise e, st)).
Proof.
  unfold kept, parses, try_block, push, seconds, value, item, to_float,
    bind, ret, raise.
  destruct r as [|f0 [|f1 [|f2 [|f3 [|f4 [|f5 [|f6 rest]]]]]]];
    cbn [length Nat.leb andb forallb seq nth_error];
    field_cases; rewrite ?andb_false_r;
    first [ left; split; reflexivity
          | right; split; [reflexivity|];
            eexists; split; [|reflexivity]; auto ].
Qed.

(** A [try] block that raises has appended nothing: the exception is a
    [ValueError] or an [IndexError], and the record is not a kept one. *)
Lemma try_block_raise (r : row) (st st' : store) (e : exn) :
  try_block py_float r st = (Raise e, st') ->
  st' = st /\ (e = ValueError \/ e = IndexError) /\ kept py_float r = false.
Proof.
  intros E. destruct (try_block_spec r st) as [[_ H]|[K (e' & He & H)]];
    rewrite H in E; [discriminate|].
  injection E as -> ->. auto.
Qed.

(** One iteration of the loop never raises: it appends a kept record and
    passes over any other. *)
Lemma loop_body_spec (r : row) (st : store) :
  loop_body py_float r st =
    (Ok tt, if kept py_float r then push py_float r st else st).
Proof.
  unfold loop_body.
  destruct (try_block_spec r st) as [[K H]|[K (e & He & H)]]; rewrite H, K.
  - unfold kept in K. apply andb_prop in K as [-> _]. reflexivity.
  - destruct (Nat.leb 7 (length r)); [|reflexivity].
    destruct He as [-> | ->]; reflexivity.
Qed.

Lemma push_all_nil (st : store) : push_all py_float [] st = st.
Proof.
  destruct st. unfold push_all. cbn. now rewrite !app_nil_r.
Qed.

Lemma push_all_cons (r : row) (ks : list row) (st : store) :
  push_all py_float ks (push py_float r st) = push_all py_float (r :: ks) st.
Proof.
  unfold push_all, push. cbn. now rewrite <- !app_assoc.
Qed.

(** The loop never raises, and appends the kept records in input order. *)
Lemma for_rows_spec (rows : list row) :
  forall st,
    for_rows py_float rows st =
      (Ok tt, push_all py_float (filter (kept py_float) rows) st).
Proof.
  induction rows as [|r rows IH]; intros st.
  - cbn. now rewrite push_all_nil.
  - cbn [for_rows filter]. unfold bind.
    rewrite loop_body_spec, IH.
    destruct (kept py_float r); [now rewrite push_all_cons|reflexivity].
Qed.

Lemma parse_records_spec (header : row) (rows : list row) :
  parse_records py_float (header :: rows) =
    Ok (dataset_of py_float (filter (kept py_float) rows)).
Proof.
  unfold parse_records. now rewrite for_rows_spec.
Qed.

Lemma dataset_of_aligned (ks : list row) :
  aligned (length ks) (dataset_of py_float ks).
Proof.
  unfold aligned, dataset_of. now rewrite !length_map.
Qed.

(** What [parse_csv] returns, whenever it returns. *)
Lemma parse_csv_Ok (fs : filesystem) (filename : string) (d : dataset) :
  parse_csv py_float fs filename = Ok d ->
  exists header rows,
    fs filename = Some (RegularFile (header :: rows)) /\
    d = dataset_of py_float (filter (kept py_float) rows).
Proof.
  unfold parse_csv.
  destruct (fs filename) as [[|[|header rows]]|]; try discriminate.
  rewrite parse_records_spec. intros [= <-]. now exists header, rows.
Qed.

End ParserFacts.

(** ** IEEE 754 arithmetic *)

Section Rounding.

Variables prec emax : Z.

Lemma shr_1_nonneg (mrs : shr_record) :
  (0 <= shr_m mrs)%Z -> (0 <= shr_m (shr_1 mrs))%Z.
Proof.
  destruct mrs as [[|[p|p|]|p] r s]; cbn; intros H; try lia.
Qed.

Lemma iter_pos_shr_1_nonneg (n : positive) :
  forall mrs, (0 <= shr_m mrs)%Z -> (0 <= shr_m (iter_pos shr_1 n mrs))%Z.
Proof.
  induction n as [n IH|n IH|]; intros mrs H; cbn [iter_pos].
  - apply IH, IH, shr_1_nonneg, H.
  - apply IH, IH, H.
  - apply shr_1_nonneg, H.
Qed.

Lemma shr_record_of_loc_m (m : Z) (l : location) :
  shr_m (shr_record_of_loc m l) = m.
Proof. destruct l as [|[]]; reflexivity. Qed.

Lemma shr_fexp_nonneg (m e : Z) (l : location) :
  (0 <= m)%Z -> (0 <= shr_m (fst (shr_fexp prec emax m e l)))%Z.
Proof.
  intros H. unfold shr_fexp, shr.
  destruct (fexp prec emax (Zdigits2 m + e) - e)%Z as [|n|n]; cbn [fst].
  - now rewrite shr_record_of_loc_m.
  - apply iter_pos_shr_1_nonneg. now rewrite shr_record_of_loc_m.
  - now rewrite shr_record_of_loc_m.
Qed.

Lemma round_nearest_even_nonneg (m : Z) (l : location) :
  (0 <= m)%Z -> (0 <= round_nearest_even m l)%Z.
Proof.
  intros H. unfold round_nearest_even.
  destruct l as [|[]]; try destruct (Z.even m); lia.
Qed.

(** Rounding a non-negative mantissa under a positive sign gives [+0], a
    positive number or [+infinity], never a NaN. *)
Lemma binary_round_aux_nonneg (m e : Z) (l : location) :
  (0 <= m)%Z -> SF_nonneg (binary_round_aux prec emax false m e l) = true.
Proof.
  intros H. unfold binary_round_aux.
  pose proof (shr_fexp_nonneg m e l H) as H1.
  destruct (shr_fexp prec emax m e l) as [mrs' e']. cbn [fst] in H1.
  pose proof (round_nearest_even_nonneg _ (loc_of_shr_record mrs') H1) as H2.
  pose proof (shr_fexp_nonneg _ e' loc_Exact H2) as H3.
  destruct (shr_fexp prec emax _ e' loc_Exact) as [mrs'' e'']. cbn [fst] in H3.
  destruct (shr_m mrs'') as [|q|q]; [reflexivity| |lia].
  now destruct (e'' <=? emax - prec)%Z.
Qed.

Lemma SFmul_self_nonneg (x : spec_float) :
  SF_is_nan x = false -> SF_nonneg (SFmul prec emax x x) = true.
Proof.
  destruct x as [s|s| |s m e]; cbn [SFmul SF_is_nan];
    rewrite ?xorb_nilpotent; try reflexivity; try discriminate.
  intros _. now apply binary_round_aux_nonneg.
Qed.

Lemma SFadd_nonneg (x y : spec_float) :
  SF_nonneg x = true -> SF_nonneg y = true ->
  SF_nonneg (SFadd prec emax x y) = true.
Proof.
  destruct x as [[]|[]| |[] mx ex], y as [[]|[]| |[] my ey];
    cbn [SF_nonneg SFadd]; try discriminate; try reflexivity.
  intros _ _. cbn [cond_Zopp]. rewrite <- Pos2Z.inj_add.
  cbn [binary_normalize]. unfold binary_round.
  destruct (shl_align _ _ _) as [mz ez].
  now apply binary_round_aux_nonneg.
Qed.

Lemma SFsqrt_nonneg (x : spec_float) :
  SF_nonneg x = true -> SF_nonneg (SFsqrt prec emax x) = true.
Proof.
  destruct x as [[]|[]| |[] m e]; cbn [SF_nonneg SFsqrt];
    try discriminate; try reflexivity.
  intros _. unfold SFsqrt_core_binary.
  set (m' := match (e - 2 * _)%Z with Z0 => _ | Zpos _ => _ | Zneg _ => _ end).
  pose proof (Z.sqrtrem_sqrt m') as Hq.
  destruct (Z.sqrtrem m') as [q r]. cbn [fst] in Hq.
  apply binary_round_aux_nonneg. rewrite Hq. apply Z.sqrt_nonneg.
Qed.

Lemma SFmul_nan (x : spec_float) :
  SF_is_nan x = true -> SF_is_nan (SFmul prec emax x x) = true.
Proof. now destruct x. Qed.

Lemma SFadd_nan_l (x y : spec_float) :
  SF_is_nan x = true -> SF_is_nan (SFadd prec emax x y) = true.
Proof. now destruct x. Qed.

Lemma SFadd_nan_r (x y : spec_float) :
  SF_is_nan y = true -> SF_is_nan (SFadd prec emax x y) = true.
Proof. destruct y; try discriminate. now destruct x. Qed.

Lemma SFsqrt_nan (x : spec_float) :
  SF_is_nan x = true -> SF_is_nan (SFsqrt prec emax x) = true.
Proof. now destruct x. Qed.

(** [x - x] is [+0] for a finite [x], and a NaN otherwise. *)
Lemma SFsub_diag (x : spec_float) :
  SFsub prec emax x x =
    if SF_is_finite x then S754_zero false else S754_nan.
Proof.
  destruct x as [[]|[]| |s m e]; cbn [SFsub SF_is_finite]; try reflexivity.
  now rewrite Z.sub_diag.
Qed.

(** Dividing by a zero or by a NaN never gives a finite value. *)
Lemma SFdiv_singular (x y : spec_float) :
  SF_is_nan y = true \/ (exists s, y = S754_zero s) ->
  SF_is_finite (SFdiv prec emax x y) = false.
Proof.
  intros [H | [s ->]].
  - destruct y as [sy|sy| |sy my ey]; try discriminate; now destruct x.
  - now destruct x.
Qed.

End Rounding.

(** ** The same facts on primitive [float64] values *)

Lemma SFcompare_refl (x : spec_float) :
  SFcompare x x = if SF_is_nan x then None else Some Eq.
Proof.
  destruct x as [s|[]| |[] m e]; cbn [SFcompare SF_is_nan]; try reflexivity.
  - now rewrite Z.compare_refl, Pos.compare_cont_refl.
  - now rewrite Z.compare_refl, Pos.compare_cont_refl.
Qed.

Lemma is_nan_spec (x : float) : is_nan x = SF_is_nan (Prim2SF x).
Proof.
  unfold is_nan. rewrite eqb_spec. unfold SFeqb. rewrite SFcompare_refl.
  now destruct (SF_is_nan (Prim2SF x)).
Qed.

Lemma is_infinity_spec (x : float) :
  is_infinity x =
    match Prim2SF x with S754_infinity _ => true | _ => false end.
Proof.
  unfold is_infinity. rewrite eqb_spec, abs_spec.
  change (Prim2SF infinity) with (S754_infinity false).
  now destruct (Prim2SF x) as [s|[]| |s m e].
Qed.

Lemma is_finite_spec (x : float) : is_finite x = SF_is_finite (Prim2SF x).
Proof.
  unfold is_finite. rewrite is_nan_spec, is_infinity_spec.
  now destruct (Prim2SF x).
Qed.

Lemma leb_zero_spec (x : float) :
  SF_nonneg (Prim2SF x) = true -> (0 <=? x)%float = true.
Proof.
  rewrite leb_spec. change (Prim2SF 0%float) with (S754_zero false).
  now destruct (Prim2SF x) as [[]|[]| |[] m e].
Qed.

(** [x - x] is exactly [+0] for a finite [x]. *)
Lemma sub_diag_finite (x : float) :
  is_finite x = true -> (x - x)%float = zero.
Proof.
  rewrite is_finite_spec. intros H.
  apply Prim2SF_inj. rewrite sub_spec. unfold SF64sub.
  rewrite SFsub_diag, H. reflexivity.
Qed.

(** [x - x] is a NaN for an infinite or NaN [x]. *)
Lemma sub_diag_not_finite (x : float) :
  is_finite x = false -> is_nan (x - x)%float = true.
Proof.
  rewrite is_finite_spec, is_nan_spec. intros H.
  rewrite sub_spec. unfold SF64sub. now rewrite SFsub_diag, H.
Qed.

(** A quotient over the difference of two identical timestamps is an
    infinity or a NaN. *)
Lemma div_sub_diag (d t : float) : is_finite (d / (t - t))%float = false.
Proof.
  rewrite is_finite_spec, div_spec, sub_spec. unfold SF64div, SF64sub.
  apply SFdiv_singular. rewrite SFsub_diag.
  destruct (SF_is_finite (Prim2SF t)); [right; now exists false | now left].
Qed.

Lemma norm3_nonneg (x y z : float) :
  is_nan x = false -> is_nan y = false -> is_nan z = false ->
  (0 <=? norm3 x y z)%float = true.
Proof.
  rewrite !is_nan_spec. intros Hx Hy Hz.
  apply leb_zero_spec. unfold norm3.
  rewrite sqrt_spec, !add_spec, !mul_spec.
  apply SFsqrt_nonneg, SFadd_nonneg; [apply SFadd_nonneg|];
    now apply SFmul_self_nonneg.
Qed.

Lemma norm3_nan (x y z : float) :
  is_nan x || is_nan y || is_nan z = true -> is_nan (norm3 x y z) = true.
Proof.
  rewrite !is_nan_spec. unfold norm3.
  rewrite sqrt_spec, !add_spec, !mul_spec. intros H.
  apply SFsqrt_nan.
  apply orb_prop in H as [H | Hz].
  - apply SFadd_nan_l. apply orb_prop in H as [Hx | Hy].
    + now apply SFadd_nan_l, SFmul_nan.
    + now apply SFadd_nan_r, SFmul_nan.
  - now apply SFadd_nan_r, SFmul_nan.
Qed.

(** A NaN is not [>= 0]. *)
Lemma leb_zero_nan (x : float) :
  is_nan x = true -> (0 <=? x)%float = false.
Proof.
  rewrite is_nan_spec, leb_spec.
  change (Prim2SF 0%float) with (S754_zero false).
  now destruct (Prim2SF x).
Qed.

(** ** Arrays *)

Lemma zip_with_length (f : float -> float -> float) (a b : np.array) :
  length a = length b -> length (np.zip_with f a b) = length a.
Proof.
  intros H. unfold np.zip_with. rewrite length_map, length_combine. lia.
Qed.

Lemma at_zip_with (f : float -> float -> float) (a b : np.array) (i : nat) :
  length a = length b -> i < length a ->
  at_ (np.zip_with f a b) i = f (at_ a i) (at_ b i).
Proof.
  revert b i. unfold at_, np.zip_with.
  induction a as [|x a IH]; intros [|y b] i Hl Hi; cbn in *; try lia.
  destruct i as [|i]; [reflexivity|]. apply IH; lia.
Qed.

Lemma broadcast_same (f : float -> float -> float) (a b : np.array) :
  length a = length b -> np.broadcast f a b = Ok (np.zip_with f a b).
Proof.
  intros H. unfold np.broadcast. now rewrite H, Nat.eqb_refl.
Qed.

Lemma at_map (f : float -> float) (a : np.array) (i : nat) :
  i < length a -> at_ (map f a) i = f (at_ a i).
Proof.
  revert i. unfold at_. induction a as [|x a IH]; intros i Hi; cbn in *.
  - lia.
  - destruct i as [|i]; [reflexivity|]. apply IH. lia.
Qed.

Lemma diff_length (a : np.array) : length (np.diff a) = length a - 1.
Proof.
  induction a as [|x [|y a] IH]; cbn [np.diff length] in *; lia.
Qed.

Lemma at_diff (a : np.array) (i : nat) :
  i + 1 < length a ->
  at_ (np.diff a) i = (at_ a (i + 1) - at_ a i)%float.
Proof.
  revert i. unfold at_.
  induction a as [|x [|y a] IH]; intros i Hi; cbn [length] in Hi; try lia.
  destruct i as [|i]; [reflexivity|].
  cbn [np.diff nth Nat.add]. apply IH. cbn [length]. lia.
Qed.

Lemma at_from1 (a : np.array) (i : nat) :
  at_ (np.from1 a) i = at_ a (i + 1).
Proof.
  unfold at_, np.from1. rewrite Nat.add_1_r.
  destruct a as [|x a]; [now destruct i|reflexivity].
Qed.

Lemma from1_length (a : np.array) : length (np.from1 a) = length a - 1.
Proof. destruct a; cbn; lia. Qed.

(** ** The derivation engine *)

(** A finite-difference quotient of two arrays of one length never raises:
    it has one entry per adjacent pair, the IEEE quotient of the two
    differences. *)
Lemma divide_diff (series times : np.array) :
  length series = length times ->
  exists q,
    np.divide (np.diff series) (np.diff times) = Ok q /\
    length q = length times - 1 /\
    forall i, i + 1 < length times -> at_ q i = quotient series times i.
Proof.
  intros H.
  assert (Hd : length (np.diff series) = length (np.diff times))
    by (rewrite !diff_length; lia).
  exists (np.zip_with PrimFloat.div (np.diff series) (np.diff times)).
  split; [apply broadcast_same, Hd|]. split.
  - rewrite zip_with_length, diff_length by exact Hd. lia.
  - intros i Hi. unfold quotient.
    rewrite at_zip_with; [|exact Hd|rewrite diff_length; lia].
    rewrite !at_diff by lia. reflexivity.
Qed.

Lemma net_acceleration_spec (ax ay az : np.array) :
  length ax = length ay -> length ay = length az ->
  exists net_acc,
    calculate_net_acceleration ax ay az = Ok net_acc /\
    length net_acc = length ax /\
    forall i, i < length ax ->
      at_ net_acc i = norm3 (at_ ax i) (at_ ay i) (at_ az i).
Proof.
  intros Hxy Hyz. unfold calculate_net_acceleration, np.add, np.square, np.sqrt.
  set (sx := map _ ax). set (sy := map _ ay). set (sz := map _ az).
  assert (Lx : length sx = length ax) by apply length_map.
  assert (Ly : length sy = length ax) by (unfold sy; rewrite length_map; lia).
  assert (Lz : length sz = length ax) by (unfold sz; rewrite length_map; lia).
  rewrite broadcast_same by lia. cbn [rbind].
  assert (Ls : length (np.zip_with PrimFloat.add sx sy) = length ax)
    by (rewrite zip_with_length; lia).
  rewrite broadcast_same by lia. cbn [rbind].
  eexists. split; [reflexivity|]. split.
  - rewrite length_map, zip_with_length; lia.
  - intros i Hi. unfold norm3.
    rewrite at_map by (rewrite zip_with_length; lia).
    rewrite at_zip_with by lia. rewrite at_zip_with by lia.
    unfold sx, sy, sz. rewrite !at_map by lia. reflexivity.
Qed.

(** * The properties of the specification *)

(** ** The parser *)

(** C4. On a file with a first line, [parse_csv] skips that line and keeps
    each later record exactly when it has at least 7 fields and fields 0-6
    all parse as floating-point numbers, [kept]; no other record stops the
    run.  The arrays are those of the kept records, in order: the time is the
    first field divided by 1000, the six others are stored as parsed,
    [dataset_of].  One record that is not kept among records that are leaves
    exactly the others. *)
Theorem parse_csv_keeps_valid_rows :
  forall (py_float : string -> option float) (fs : filesystem)
         (filename : string) (first_line : row) (rows : list row),
    fs filename = Some (RegularFile (first_line :: rows)) ->
    parse_csv py_float fs filename =
      Ok (dataset_of py_float (filter (kept py_float) rows)) /\
    (forall before bad after,
        rows = before ++ bad :: after ->
        kept py_float bad = false ->
        forallb (kept py_float) (before ++ after) = true ->
        parse_csv py_float fs filename =
          Ok (dataset_of py_float (before ++ after)) /\
        aligned (length rows - 1) (dataset_of py_float (before ++ after))).
Proof.
  intros py_float fs filename first_line rows Hfs.
  assert (Hp : parse_csv py_float fs filename =
               Ok (dataset_of py_float (filter (kept py_float) rows))).
  { unfold parse_csv. rewrite Hfs. apply parse_records_spec. }
  split; [exact Hp|].
  intros before bad after -> Hbad Hall.
  assert (Hf : filter (kept py_float) (before ++ bad :: after) = before ++ after).
  { rewrite forallb_app in Hall. apply andb_prop in Hall as [Hb Ha].
    rewrite filter_app. cbn [filter]. rewrite Hbad.
    f_equal; apply forallb_filter_id; assumption. }
  rewrite Hp, Hf. split; [reflexivity|].
  replace (length (before ++ bad :: after) - 1) with (length (before ++ after))
    by (rewrite !length_app; cbn [length]; lia).
  apply dataset_of_aligned.
Qed.

Lemma parse_csv_keeps_valid_rows_witness :
  parse_csv PyFloat.float_of_str (one_file "swing.csv" one_malformed)
    "swing.csv" =
    Ok (dataset_of PyFloat.float_of_str
          (filter (kept PyFloat.float_of_str) (tl one_malformed))) /\
  (forall before bad after,
      tl one_malformed = before ++ bad :: after ->
      kept PyFloat.float_of_str bad = false ->
      forallb (kept PyFloat.float_of_str) (before ++ after) = true ->
      parse_csv PyFloat.float_of_str (one_file "swing.csv" one_malformed)
        "swing.csv" =
        Ok (dataset_of PyFloat.float_of_str (before ++ after)) /\
      aligned (length (tl one_malformed) - 1)
        (dataset_of PyFloat.float_of_str (before ++ after))).
Proof.
  apply (parse_csv_keeps_valid_rows PyFloat.float_of_str
           (one_file "swing.csv" one_malformed) "swing.csv" header
           (tl one_malformed)).
  reflexivity.
Defined.

(** The file with one malformed record, run: two samples, not three. *)
Example parse_csv_one_malformed :
  parse_csv PyFloat.float_of_str (one_file "swing.csv" one_malformed)
    "swing.csv" =
    Ok ([0; 1], [0; 90], [0; 0], [0; 0], [1; 0], [0; 1], [0; 0])%float.
Proof. vm_compute. reflexivity. Qed.

(** C6. The seven arrays [parse_csv] returns have one length, and entry [i]
    of each of them comes from the [i]-th kept record of the file, the kept
    records taken in input order.  A [try] block that fails on a later field
    has appended to none of the lists. *)
Theorem parse_csv_arrays_aligned :
  forall (py_float : string -> option float) (fs : filesystem)
         (filename : string) (times yaws pitches rolls ax ay az : np.array),
    parse_csv py_float fs filename =
      Ok (times, yaws, pitches, rolls, ax, ay, az) ->
    aligned (length times) (times, yaws, pitches, rolls, ax, ay, az) /\
    (exists first_line rows,
        fs filename = Some (RegularFile (first_line :: rows)) /\
        length times = length (filter (kept py_float) rows) /\
        forall i r,
          nth_error (filter (kept py_float) rows) i = Some r ->
          at_ times i = seconds py_float r /\
          at_ yaws i = value py_float r 1 /\
          at_ pitches i = value py_float r 2 /\
          at_ rolls i = value py_float r 3 /\
          at_ ax i = value py_float r 4 /\
          at_ ay i = value py_float r 5 /\
          at_ az i = value py_float r 6) /\
    (forall r st e st',
        try_block py_float r st = (Raise e, st') -> st' = st).
Proof.
  intros py_float fs filename times yaws pitches rolls ax ay az H.
  destruct (parse_csv_Ok _ _ _ _ H) as (first_line & rows & Hfs & Hd).
  unfold dataset_of in Hd. injection Hd as -> -> -> -> -> -> ->.
  split; [|split].
  - unfold aligned. now rewrite !length_map.
  - exists first_line, rows. split; [exact Hfs|]. split; [apply length_map|].
    intros i r Hr. unfold at_.
    assert (Hn : forall f : row -> float,
               nth i (map f (filter (kept py_float) rows)) nan = f r).
    { intros f. apply nth_error_nth. now rewrite nth_error_map, Hr. }
    now rewrite !Hn.
  - intros r st e st' E. now destruct (try_block_raise _ _ _ _ _ E).
Qed.

Lemma parse_csv_arrays_aligned_witness :
  aligned 2 ([0; 1], [0; 90], [0; 0], [0; 0], [1; 0], [0; 1], [0; 0])%float.
Proof.
  refine (proj1 (parse_csv_arrays_aligned PyFloat.float_of_str
                   (one_file "swing.csv" one_malformed) "swing.csv"
                   [0; 1] [0; 90] [0; 0] [0; 0] [1; 0] [0; 1] [0; 0] _))%float.
  vm_compute. reflexivity.
Defined.

(** ** The derivation engine on a parsed dataset *)

Lemma parsed_aligned (py_float : string -> option float) (fs : filesystem)
      (filename : string) (d : dataset) :
  parse_csv py_float fs filename = Ok d ->
  aligned (length (let '(t, _, _, _, _, _, _) := d in t)) d.
Proof.
  intros H. destruct (parse_csv_Ok _ _ _ _ H) as (h & rows & _ & ->).
  unfold dataset_of, aligned. now rewrite !length_map.
Qed.

(** C2. On a parsed dataset of [N] samples, net acceleration is computed
    without an exception, has [N] entries, the length of the three
    acceleration arrays, and entry [i] is the Euclidean norm
    [sqrt(ax[i]^2 + ay[i]^2 + az[i]^2)] in [float64] arithmetic. *)
Theorem net_acceleration_is_euclidean_norm :
  forall (py_float : string -> option float) (fs : filesystem)
         (filename : string) (times yaws pitches rolls ax ay az : np.array),
    parse_csv py_float fs filename =
      Ok (times, yaws, pitches, rolls, ax, ay, az) ->
    exists net_acc,
      calculate_net_acceleration ax ay az = Ok net_acc /\
      length net_acc = length times /\
      length net_acc = length ax /\
      length net_acc = length ay /\
      length net_acc = length az /\
      forall i, i < length times ->
        at_ net_acc i = norm3 (at_ ax i) (at_ ay i) (at_ az i).
Proof.
  intros py_float fs filename times yaws pitches rolls ax ay az H.
  destruct (parsed_aligned _ _ _ _ H) as (_ & _ & _ & _ & Hx & Hy & Hz).
  destruct (net_acceleration_spec ax ay az) as (net & Hn & Hl & Hi);
    [lia..|].
  exists net. repeat split; try lia; try exact Hn.
  intros i Hlt. apply Hi. lia.
Qed.

Lemma net_acceleration_is_euclidean_norm_witness :
  exists net_acc,
    calculate_net_acceleration [1; 0]%float [0; 1]%float [0; 0]%float =
      Ok net_acc /\
    length net_acc = 2 /\
    length net_acc = 2 /\
    length net_acc = 2 /\
    length net_acc = 2 /\
    forall i, i < 2 ->
      at_ net_acc i =
        norm3 (at_ [1; 0]%float i) (at_ [0; 1]%float i) (at_ [0; 0]%float i).
Proof.
  refine (net_acceleration_is_euclidean_norm PyFloat.float_of_str
            (one_file "swing.csv" scenario) "swing.csv"
            [0; 1] [0; 90] [0; 0] [0; 0] [1; 0] [0; 1] [0; 0] _)%float.
  vm_compute. reflexivity.
Defined.

(** C1. On a parsed dataset of [N] samples, net jerk and the three angular
    rates are computed without an exception; each has [N - 1] entries, entry
    [i] being the difference of the series over the pair [i], [i+1] divided
    by the difference of the times over that pair, for [i = 0..N-2]; the time
    axis returned with them has [N - 1] entries, entry [i] being
    [times[i+1]].  The quotient is the [float64] one, so the statement needs
    no assumption on the timestamps. *)
Theorem derivatives_are_finite_differences :
  forall (py_float : string -> option float) (fs : filesystem)
         (filename : string) (times yaws pitches rolls ax ay az : np.array),
    parse_csv py_float fs filename =
      Ok (times, yaws, pitches, rolls, ax, ay, az) ->
    exists net_acc jerk jerk_times yaw_rate pitch_rate roll_rate deriv_times,
      calculate_net_acceleration ax ay az = Ok net_acc /\
      calculate_net_jerk net_acc times = Ok (jerk, jerk_times) /\
      calculate_angular_velocities yaws pitches rolls times =
        Ok (yaw_rate, pitch_rate, roll_rate, deriv_times) /\
      length jerk = length times - 1 /\
      length yaw_rate = length times - 1 /\
      length pitch_rate = length times - 1 /\
      length roll_rate = length times - 1 /\
      length jerk_times = length times - 1 /\
      length deriv_times = length times - 1 /\
      forall i, i + 1 < length times ->
        at_ jerk i = quotient net_acc times i /\
        at_ yaw_rate i = quotient yaws times i /\
        at_ pitch_rate i = quotient pitches times i /\
        at_ roll_rate i = quotient rolls times i /\
        at_ jerk_times i = at_ times (i + 1) /\
        at_ deriv_times i = at_ times (i + 1).
Proof.
  intros py_float fs filename times yaws pitches rolls ax ay az H.
  destruct (parsed_aligned _ _ _ _ H) as (_ & Hy & Hp & Hr & Hx & Hay & Hz).
  destruct (net_acceleration_spec ax ay az) as (net & Hn & Hl & _); [lia..|].
  destruct (divide_diff net times) as (jerk & Hj & Lj & Ij); [lia|].
  destruct (divide_diff yaws times) as (yr & Hyr & Lyr & Iyr); [lia|].
  destruct (divide_diff pitches times) as (pr & Hpr & Lpr & Ipr); [lia|].
  destruct (divide_diff rolls times) as (rr & Hrr & Lrr & Irr); [lia|].
  exists net, jerk, (np.from1 times), yr, pr, rr, (np.from1 times).
  split; [exact Hn|]. split.
  { unfold calculate_net_jerk. now rewrite Hj. }
  split.
  { unfold calculate_angular_velocities. now rewrite Hyr, Hpr, Hrr. }
  rewrite from1_length. repeat split; try assumption; auto using at_from1.
Qed.

Lemma derivatives_are_finite_differences_witness :
  exists net_acc jerk jerk_times yaw_rate pitch_rate roll_rate deriv_times,
    calculate_net_acceleration [1; 0]%float [0; 1]%float [0; 0]%float =
      Ok net_acc /\
    calculate_net_jerk net_acc [0; 1]%float = Ok (jerk, jerk_times) /\
    calculate_angular_velocities [0; 90]%float [0; 0]%float [0; 0]%float
      [0; 1]%float = Ok (yaw_rate, pitch_rate, roll_rate, deriv_times) /\
    length jerk = 1 /\
    length yaw_rate = 1 /\
    length pitch_rate = 1 /\
    length roll_rate = 1 /\
    length jerk_times = 1 /\
    length deriv_times = 1 /\
    forall i, i + 1 < 2 ->
      at_ jerk i = quotient net_acc [0; 1]%float i /\
      at_ yaw_rate i = quotient [0; 90]%float [0; 1]%float i /\
      at_ pitch_rate i = quotient [0; 0]%float [0; 1]%float i /\
      at_ roll_rate i = quotient [0; 0]%float [0; 1]%float i /\
      at_ jerk_times i = at_ [0; 1]%float (i + 1) /\
      at_ deriv_times i = at_ [0; 1]%float (i + 1).
Proof.
  refine (derivatives_are_finite_differences PyFloat.float_of_str
            (one_file "swing.csv" scenario) "swing.csv"
            [0; 1] [0; 90] [0; 0] [0; 0] [1; 0] [0; 1] [0; 0] _)%float.
  vm_compute. reflexivity.
Defined.

(** The whole engine on arrays of one length: nothing raises, and every
    output is determined entry by entry. *)
Lemma engine_spec (times yaws pitches rolls ax ay az : np.array) :
  aligned (length times) (times, yaws, pitches, rolls, ax, ay, az) ->
  exists net_acc jerk yaw_rate pitch_rate roll_rate,
    calculate_net_acceleration ax ay az = Ok net_acc /\
    calculate_net_jerk net_acc times = Ok (jerk, np.from1 times) /\
    calculate_angular_velocities yaws pitches rolls times =
      Ok (yaw_rate, pitch_rate, roll_rate, np.from1 times) /\
    (length net_acc = length times /\
     length jerk = length times - 1 /\
     length yaw_rate = length times - 1 /\
     length pitch_rate = length times - 1 /\
     length roll_rate = length times - 1) /\
    (forall i, i < length times ->
       at_ net_acc i = norm3 (at_ ax i) (at_ ay i) (at_ az i)) /\
    (forall i, i + 1 < length times ->
       at_ jerk i = quotient net_acc times i /\
       at_ yaw_rate i = quotient yaws times i /\
       at_ pitch_rate i = quotient pitches times i /\
       at_ roll_rate i = quotient rolls times i).
Proof.
  intros (_ & Hy & Hp & Hr & Hx & Hay & Hz).
  destruct (net_acceleration_spec ax ay az) as (net & Hn & Hl & Hi); [lia..|].
  destruct (divide_diff net times) as (jerk & Hj & Lj & Ij); [lia|].
  destruct (divide_diff yaws times) as (yr & Hyr & Lyr & Iyr); [lia|].
  destruct (divide_diff pitches times) as (pr & Hpr & Lpr & Ipr); [lia|].
  destruct (divide_diff rolls times) as (rr & Hrr & Lrr & Irr); [lia|].
  exists net, jerk, yr, pr, rr.
  split; [exact Hn|]. split.
  { unfold calculate_net_jerk. now rewrite Hj. }
  split.
  { unfold calculate_angular_velocities. now rewrite Hyr, Hpr, Hrr. }
  split; [repeat split; lia|]. split.
  - intros i Hlt. apply Hi. lia.
  - intros i Hlt. auto.
Qed.

(** C8. On a parsed dataset in which samples [i] and [i+1] carry one
    timestamp, the derivative computations make no check and raise nothing:
    they return, and entry [i] of net jerk and of each angular rate is the
    quotient by the zero time difference itself, an infinity or a NaN. *)
Theorem derivatives_divide_unguarded :
  forall (py_float : string -> option float) (fs : filesystem)
         (filename : string) (times yaws pitches rolls ax ay az : np.array)
         (i : nat),
    parse_csv py_float fs filename =
      Ok (times, yaws, pitches, rolls, ax, ay, az) ->
    i + 1 < length times ->
    at_ times (i + 1) = at_ times i ->
    exists net_acc jerk jerk_times yaw_rate pitch_rate roll_rate deriv_times,
      calculate_net_acceleration ax ay az = Ok net_acc /\
      calculate_net_jerk net_acc times = Ok (jerk, jerk_times) /\
      calculate_angular_velocities yaws pitches rolls times =
        Ok (yaw_rate, pitch_rate, roll_rate, deriv_times) /\
      (at_ jerk i = quotient net_acc times i /\
       is_finite (at_ jerk i) = false) /\
      (at_ yaw_rate i = quotient yaws times i /\
       is_finite (at_ yaw_rate i) = false) /\
      (at_ pitch_rate i = quotient pitches times i /\
       is_finite (at_ pitch_rate i) = false) /\
      (at_ roll_rate i = quotient rolls times i /\
       is_finite (at_ roll_rate i) = false).
Proof.
  intros py_float fs filename times yaws pitches rolls ax ay az i H Hi Ht.
  destruct (engine_spec times yaws pitches rolls ax ay az)
    as (net & jerk & yr & pr & rr & Hn & Hj & Ha & _ & _ & Hq).
  { exact (parsed_aligned _ _ _ _ H). }
  destruct (Hq i Hi) as (Qj & Qy & Qp & Qr).
  assert (S : forall series,
             is_finite (quotient series times i) = false).
  { intros series. unfold quotient. rewrite Ht. apply div_sub_diag. }
  exists net, jerk, (np.from1 times), yr, pr, rr, (np.from1 times).
  rewrite Qj, Qy, Qp, Qr. repeat split; auto.
Qed.

Lemma derivatives_divide_unguarded_witness :
  exists net_acc jerk jerk_times yaw_rate pitch_rate roll_rate deriv_times,
    calculate_net_acceleration [1; 0]%float [0; 2]%float [0; 0]%float =
      Ok net_acc /\
    calculate_net_jerk net_acc [1; 1]%float = Ok (jerk, jerk_times) /\
    calculate_angular_velocities [0; 90]%float [0; 0]%float [0; 0]%float
      [1; 1]%float = Ok (yaw_rate, pitch_rate, roll_rate, deriv_times) /\
    (at_ jerk 0 = quotient net_acc [1; 1]%float 0 /\
     is_finite (at_ jerk 0) = false) /\
    (at_ yaw_rate 0 = quotient [0; 90]%float [1; 1]%float 0 /\
     is_finite (at_ yaw_rate 0) = false) /\
    (at_ pitch_rate 0 = quotient [0; 0]%float [1; 1]%float 0 /\
     is_finite (at_ pitch_rate 0) = false) /\
    (at_ roll_rate 0 = quotient [0; 0]%float [1; 1]%float 0 /\
     is_finite (at_ roll_rate 0) = false).
Proof.
  refine (derivatives_divide_unguarded PyFloat.float_of_str
            (one_file "swing.csv" repeated_timestamp) "swing.csv"
            [1; 1] [0; 90] [0; 0] [0; 0] [1; 0] [0; 2] [0; 0] 0 _ _ _)%float.
  - vm_compute. reflexivity.
  - cbn. lia.
  - reflexivity.
Defined.

(** The file with a repeated timestamp, run: jerk is [+infinity], the yaw
    rate [+infinity], the pitch and roll rates [0/0], NaN. *)
Example repeated_timestamp_run :
  exists d v,
    parse_csv PyFloat.float_of_str (one_file "swing.csv" repeated_timestamp)
      "swing.csv" = Ok d /\
    derive d = Ok v /\
    d_net_acc v = [1; 2]%float /\
    d_jerk v = [infinity] /\
    d_yaw_rate v = [infinity] /\
    d_pitch_rate v = [nan] /\
    d_roll_rate v = [nan].
Proof. do 2 eexists. vm_compute. repeat split. Qed.

(** C10. On a parsed dataset of at least one sample the time axis returned
    with net jerk and the one returned with the angular rates are one
    sequence: the timestamps without the first, [times[1:]], of [N - 1]
    entries, entry [i] being [times[i+1]]. *)
Theorem derivative_time_axes_coincide :
  forall (py_float : string -> option float) (fs : filesystem)
         (filename : string) (times yaws pitches rolls ax ay az : np.array),
    parse_csv py_float fs filename =
      Ok (times, yaws, pitches, rolls, ax, ay, az) ->
    1 <= length times ->
    exists net_acc jerk jerk_times yaw_rate pitch_rate roll_rate deriv_times,
      calculate_net_acceleration ax ay az = Ok net_acc /\
      calculate_net_jerk net_acc times = Ok (jerk, jerk_times) /\
      calculate_angular_velocities yaws pitches rolls times =
        Ok (yaw_rate, pitch_rate, roll_rate, deriv_times) /\
      jerk_times = deriv_times /\
      jerk_times = tl times /\
      deriv_times = tl times /\
      length jerk_times = length times - 1 /\
      forall i, i + 1 < length times ->
        at_ jerk_times i = at_ times (i + 1) /\
        at_ deriv_times i = at_ times (i + 1).
Proof.
  intros py_float fs filename times yaws pitches rolls ax ay az H _.
  destruct (engine_spec times yaws pitches rolls ax ay az)
    as (net & jerk & yr & pr & rr & Hn & Hj & Ha & _).
  { exact (parsed_aligned _ _ _ _ H). }
  exists net, jerk, (np.from1 times), yr, pr, rr, (np.from1 times).
  split; [exact Hn|]. split; [exact Hj|]. split; [exact Ha|].
  split; [reflexivity|]. split; [reflexivity|]. split; [reflexivity|].
  split; [apply from1_length|].
  intros i _. split; apply at_from1.
Qed.

Lemma derivative_time_axes_coincide_witness :
  exists net_acc jerk jerk_times yaw_rate pitch_rate roll_rate deriv_times,
    calculate_net_acceleration [1; 0]%float [0; 1]%float [0; 0]%float =
      Ok net_acc /\
    calculate_net_jerk net_acc [0; 1]%float = Ok (jerk, jerk_times) /\
    calculate_angular_velocities [0; 90]%float [0; 0]%float [0; 0]%float
      [0; 1]%float = Ok (yaw_rate, pitch_rate, roll_rate, deriv_times) /\
    jerk_times = deriv_times /\
    jerk_times = [1]%float /\
    deriv_times = [1]%float /\
    length jerk_times = 1 /\
    forall i, i + 1 < 2 ->
      at_ jerk_times i = at_ [0; 1]%float (i + 1) /\
      at_ deriv_times i = at_ [0; 1]%float (i + 1).
Proof.
  refine (derivative_time_axes_coincide PyFloat.float_of_str
            (one_file "swing.csv" scenario) "swing.csv"
            [0; 1] [0; 90] [0; 0] [0; 0] [1; 0] [0; 1] [0; 0] _ _)%float.
  - vm_compute. reflexivity.
  - cbn. lia.
Defined.

(** C9, as stated, fails: a record whose acceleration field reads [nan] is
    kept, and the net acceleration of that sample is a NaN, which is not
    [>= 0]. *)
Lemma net_acceleration_nonnegative_counterexample :
  exists net_acc,
    parse_csv PyFloat.float_of_str (one_file "swing.csv" nan_acceleration)
      "swing.csv" = Ok ([0], [0], [0], [0], [nan], [0], [0])%float /\
    calculate_net_acceleration [nan] [0]%float [0]%float = Ok net_acc /\
    (0 <=? at_ net_acc 0)%float = false.
Proof. eexists. vm_compute. repeat split. Qed.

(** C9, amended. On a parsed dataset, net acceleration is [>= 0] at every
    index at which none of the three acceleration values is a NaN; at an
    index at which one of them is, it is a NaN. *)
Theorem net_acceleration_nonnegative :
  forall (py_float : string -> option float) (fs : filesystem)
         (filename : string) (times yaws pitches rolls ax ay az : np.array),
    parse_csv py_float fs filename =
      Ok (times, yaws, pitches, rolls, ax, ay, az) ->
    exists net_acc,
      calculate_net_acceleration ax ay az = Ok net_acc /\
      forall i, i < length times ->
        (is_nan (at_ ax i) = false ->
         is_nan (at_ ay i) = false ->
         is_nan (at_ az i) = false ->
         (0 <=? at_ net_acc i)%float = true) /\
        (is_nan (at_ ax i) || is_nan (at_ ay i) || is_nan (at_ az i) = true ->
         is_nan (at_ net_acc i) = true /\
         (0 <=? at_ net_acc i)%float = false).
Proof.
  intros py_float fs filename times yaws pitches rolls ax ay az H.
  destruct (engine_spec times yaws pitches rolls ax ay az)
    as (net & jerk & yr & pr & rr & Hn & _ & _ & _ & Hi & _).
  { exact (parsed_aligned _ _ _ _ H). }
  exists net. split; [exact Hn|].
  intros i Hlt. rewrite (Hi i Hlt). split.
  - apply norm3_nonneg.
  - intros Hnan. pose proof (norm3_nan _ _ _ Hnan) as Hr.
    split; [exact Hr|]. now apply leb_zero_nan.
Qed.

Lemma net_acceleration_nonnegative_witness :
  exists net_acc,
    calculate_net_acceleration [1; 0]%float [0; 1]%float [0; 0]%float =
      Ok net_acc /\
    forall i, i < 2 ->
      (is_nan (at_ [1; 0]%float i) = false ->
       is_nan (at_ [0; 1]%float i) = false ->
       is_nan (at_ [0; 0]%float i) = false ->
       (0 <=? at_ net_acc i)%float = true) /\
      (is_nan (at_ [1; 0]%float i) || is_nan (at_ [0; 1]%float i)
         || is_nan (at_ [0; 0]%float i) = true ->
       is_nan (at_ net_acc i) = true /\
       (0 <=? at_ net_acc i)%float = false).
Proof.
  refine (net_acceleration_nonnegative PyFloat.float_of_str
            (one_file "swing.csv" scenario) "swing.csv"
            [0; 1] [0; 90] [0; 0] [0; 0] [1; 0] [0; 1] [0; 0] _)%float.
  vm_compute. reflexivity.
Defined.

(** ** Time normalisation *)

(** Lines 84-92 on arrays of one length with at least one sample: nothing
    raises, and the three time axes are shifted by [times[0]]. *)
Lemma derive_spec (times yaws pitches rolls ax ay az : np.array) :
  aligned (length times) (times, yaws, pitches, rolls, ax, ay, az) ->
  1 <= length times ->
  exists net_acc jerk yaw_rate pitch_rate roll_rate,
    calculate_net_acceleration ax ay az = Ok net_acc /\
    calculate_net_jerk net_acc times = Ok (jerk, np.from1 times) /\
    calculate_angular_velocities yaws pitches rolls times =
      Ok (yaw_rate, pitch_rate, roll_rate, np.from1 times) /\
    derive (times, yaws, pitches, rolls, ax, ay, az) =
      Ok (mkDerived net_acc jerk yaw_rate pitch_rate roll_rate
            (np.sub_scalar times (at_ times 0))
            (np.sub_scalar (np.from1 times) (at_ times 0))
            (np.sub_scalar (np.from1 times) (at_ times 0))).
Proof.
  intros Ha Hn.
  destruct (engine_spec times yaws pitches rolls ax ay az Ha)
    as (net & jerk & yr & pr & rr & H1 & H2 & H3 & _).
  exists net, jerk, yr, pr, rr. repeat split; try assumption.
  unfold derive. rewrite H1. cbn [rbind]. rewrite H2. cbn [rbind].
  rewrite H3. cbn [rbind].
  destruct times as [|t0 times]; [cbn in Hn; lia|]. reflexivity.
Qed.

(** C3, as stated, fails: with a first timestamp that reads [inf] the record
    is kept, the start time is [+infinity], and the first entry of the
    normalised sample-aligned axis is [inf - inf], a NaN, not 0. *)
Lemma normalized_start_counterexample :
  exists v,
    parse_csv PyFloat.float_of_str (one_file "swing.csv" infinite_start)
      "swing.csv" = Ok ([infinity], [0], [0], [0], [1], [0], [0])%float /\
    derive ([infinity], [0], [0], [0], [1], [0], [0])%float = Ok v /\
    d_times_norm v = [nan] /\
    (at_ (d_times_norm v) 0 =? 0)%float = false.
Proof. eexists. vm_compute. repeat split. Qed.

(** C3, amended. On a parsed dataset with at least one sample the three
    chart time axes, the sample-aligned one and the two derivative ones, are
    each the axis minus one value, the first sample's time in seconds
    [times[0]], not the axis's own first entry, and the five charts are
    drawn over these three axes.  The first entry of the normalised
    sample-aligned axis is exactly [+0] when [times[0]] is finite, and a NaN
    when it is an infinity or a NaN. *)
Theorem time_axes_share_start :
  forall (py_float : string -> option float) (fs : filesystem)
         (filename : string) (times yaws pitches rolls ax ay az : np.array),
    parse_csv py_float fs filename =
      Ok (times, yaws, pitches, rolls, ax, ay, az) ->
    1 <= length times ->
    exists v,
      derive (times, yaws, pitches, rolls, ax, ay, az) = Ok v /\
      d_times_norm v = map (fun t => (t - at_ times 0)%float) times /\
      d_jerk_times_norm v =
        map (fun t => (t - at_ times 0)%float) (np.from1 times) /\
      d_deriv_times_norm v =
        map (fun t => (t - at_ times 0)%float) (np.from1 times) /\
      x_axes (charts (times, yaws, pitches, rolls, ax, ay, az) v) =
        [ [d_times_norm v];
          [d_jerk_times_norm v];
          [d_times_norm v; d_times_norm v; d_times_norm v];
          [d_times_norm v; d_times_norm v; d_times_norm v];
          [d_deriv_times_norm v; d_deriv_times_norm v; d_deriv_times_norm v] ] /\
      (is_finite (at_ times 0) = true -> at_ (d_times_norm v) 0 = zero) /\
      (is_finite (at_ times 0) = false ->
       is_nan (at_ (d_times_norm v) 0) = true).
Proof.
  intros py_float fs filename times yaws pitches rolls ax ay az H Hn.
  destruct (derive_spec times yaws pitches rolls ax ay az)
    as (net & jerk & yr & pr & rr & _ & _ & _ & Hd);
    [exact (parsed_aligned _ _ _ _ H)|exact Hn|].
  eexists. split; [exact Hd|]. cbn [d_times_norm d_jerk_times_norm
                                     d_deriv_times_norm].
  repeat split.
  - intros Hf. unfold np.sub_scalar. rewrite at_map by lia.
    now apply sub_diag_finite.
  - intros Hf. unfold np.sub_scalar. rewrite at_map by lia.
    now apply sub_diag_not_finite.
Qed.

Lemma time_axes_share_start_witness :
  exists v,
    derive ([0; 1], [0; 90], [0; 0], [0; 0], [1; 0], [0; 1], [0; 0])%float =
      Ok v /\
    d_times_norm v = map (fun t => (t - 0)%float) [0; 1]%float /\
    d_jerk_times_norm v = map (fun t => (t - 0)%float) [1]%float /\
    d_deriv_times_norm v = map (fun t => (t - 0)%float) [1]%float /\
    x_axes (charts ([0; 1], [0; 90], [0; 0], [0; 0], [1; 0], [0; 1], [0; 0])%float
              v) =
      [ [d_times_norm v];
        [d_jerk_times_norm v];
        [d_times_norm v; d_times_norm v; d_times_norm v];
        [d_times_norm v; d_times_norm v; d_times_norm v];
        [d_deriv_times_norm v; d_deriv_times_norm v; d_deriv_times_norm v] ] /\
    (is_finite 0%float = true -> at_ (d_times_norm v) 0 = zero) /\
    (is_finite 0%float = false -> is_nan (at_ (d_times_norm v) 0) = true).
Proof.
  refine (time_axes_share_start PyFloat.float_of_str
            (one_file "swing.csv" scenario) "swing.csv"
            [0; 1] [0; 90] [0; 0] [0; 0] [1; 0] [0; 1] [0; 0] _ _)%float.
  - vm_compute. reflexivity.
  - cbn. lia.
Defined.

(** ** The concrete scenario *)

(** C7, as stated, fails: the scenario has two samples, so the normalised
    time axis of the acceleration series has two entries, [0.0, 1.0], and is
    not [0.0] alone. *)
Lemma scenario_counterexample :
  exists d v,
    parse_csv PyFloat.float_of_str (one_file "swing.csv" scenario)
      "swing.csv" = Ok d /\
    derive d = Ok v /\
    d_net_acc v = [1; 1]%float /\
    d_times_norm v = [0; 1]%float /\
    d_times_norm v <> [0]%float.
Proof.
  do 2 eexists. vm_compute. repeat split. discriminate.
Qed.

(** C7, amended. For the header followed by the rows (0,0,0,0,1,0,0) and
    (1000,90,0,0,0,1,0) the pipeline computes net_acc = [1.0, 1.0],
    jerk = [0.0], yaw_rate = [90.0], and the normalised times [0.0, 1.0] for
    the acceleration series and [1.0] for the derivative series; the charts
    of these values are what is drawn and saved, and the run succeeds
    whenever matplotlib's calls on them return. *)
Theorem scenario_values :
  exists d v,
    parse_csv PyFloat.float_of_str (one_file "swing.csv" scenario)
      "swing.csv" = Ok d /\
    derive d = Ok v /\
    d_net_acc v = [1; 1]%float /\
    d_jerk v = [0]%float /\
    d_yaw_rate v = [90]%float /\
    d_pitch_rate v = [0]%float /\
    d_roll_rate v = [0]%float /\
    d_times_norm v = [0; 1]%float /\
    d_jerk_times_norm v = [1]%float /\
    d_deriv_times_norm v = [1]%float /\
    forall (plt_draw : figure -> result unit)
           (plt_savefig : string -> figure -> result unit),
      plt_draw (charts d v) = Ok tt ->
      plt_savefig "swing.png"%string (charts d v) = Ok tt ->
      generate_graphs PyFloat.float_of_str plt_draw plt_savefig
        (one_file "swing.csv" scenario) "swing.csv" "swing.png" =
        (Ok true,
         [OpenRead "swing.csv"; Draw (charts d v);
          Savefig "swing.png" (charts d v);
          Stdout "Graphs saved to swing.png"]).
Proof.
  assert (P : parse_csv PyFloat.float_of_str (one_file "swing.csv" scenario)
                "swing.csv" =
              Ok ([0; 1], [0; 90], [0; 0], [0; 0], [1; 0], [0; 1], [0; 0])%float)
    by (vm_compute; reflexivity).
  assert (D : derive ([0; 1], [0; 90], [0; 0], [0; 0], [1; 0], [0; 1],
                      [0; 0])%float =
              Ok (mkDerived [1; 1] [0] [90] [0] [0] [0; 1] [1] [1])%float)
    by (vm_compute; reflexivity).
  eexists. eexists. split; [exact P|]. split; [exact D|].
  do 8 (split; [reflexivity|]).
  intros plt_draw plt_savefig Hd Hs.
  unfold generate_graphs. rewrite P. cbn [length Nat.eqb].
  rewrite D. cbn zeta. rewrite Hd, Hs. reflexivity.
Qed.

Lemma scenario_values_witness :
  generate_graphs PyFloat.float_of_str draw_returns savefig_returns
    (one_file "swing.csv" scenario) "swing.csv" "swing.png" =
    (Ok true,
     [OpenRead "swing.csv";
      Draw (charts
              ([0; 1], [0; 90], [0; 0], [0; 0], [1; 0], [0; 1], [0; 0])%float
              (mkDerived [1; 1] [0] [90] [0] [0] [0; 1] [1] [1])%float);
      Savefig "swing.png"
        (charts
           ([0; 1], [0; 90], [0; 0], [0; 0], [1; 0], [0; 1], [0; 0])%float
           (mkDerived [1; 1] [0] [90] [0] [0] [0; 1] [1] [1])%float);
      Stdout "Graphs saved to swing.png"]).
Proof.
  destruct scenario_values
    as (d & v & P & D & _ & _ & _ & _ & _ & _ & _ & _ & G).
  assert (Ed : d = ([0; 1], [0; 90], [0; 0], [0; 0], [1; 0], [0; 1],
                    [0; 0])%float)
    by (vm_compute in P; congruence).
  subst d.
  assert (Ev : v = (mkDerived [1; 1] [0] [90] [0] [0] [0; 1] [1] [1])%float)
    by (vm_compute in D; congruence).
  subst v.
  apply G; reflexivity.
Defined.

(** ** The process *)

Section DriverFacts.

Variable py_float : string -> option float.
Variable plt_draw : figure -> result unit.
Variable plt_savefig : string -> figure -> result unit.



(** Whatever [generate_graphs] does: it opens the input file and no other;
    it calls [plt.savefig] at most once, with [output_file]; when it returns
    [True] it has made that call, and when it returns [False] it has called
    matplotlib not at all. *)
Lemma generate_graphs_effects (fs : filesystem) (input_file output_file : string)
      (r : result bool) (tr : list event) :
  generate_graphs py_float plt_draw plt_savefig fs input_file output_file =
    (r, tr) ->
  opens tr = [input_file] /\
  (savefig_calls tr = [] \/ savefig_calls tr = [output_file]) /\
  (r = Ok true -> savefig_calls tr = [output_file]) /\
  (r = Ok false -> matplotlib_calls tr = []).
Proof.
  unfold generate_graphs.
  destruct (parse_csv py_float fs input_file)
    as [[[[[[[t y] p] rl] ax] ay] az]|e].
  - destruct (Nat.eqb (length t) 0).
    + intros [= <- <-]. cbn. repeat split; auto; discriminate.
    + destruct (derive _) as [v|e]; [|intros [= <- <-]; cbn;
                                       repeat split; auto; discriminate].
      cbn zeta. destruct (plt_draw _) as [u|e];
        [|intros [= <- <-]; cbn; repeat split; auto; discriminate].
      destruct (plt_savefig _ _) as [u'|e]; intros [= <- <-]; cbn;
        repeat split; auto; discriminate.
  - intros [= <- <-]. cbn. repeat split; auto; discriminate.
Qed.

End DriverFacts.



(** A missing input: status 1, one message, nothing opened, drawn or
    saved. *)
Example main_missing_input :
  main PyFloat.float_of_str draw_returns savefig_returns
    ["generate_graphs.py"; "other.csv"; "swing.png"]%string
    (one_file "swing.csv" scenario) =
    (1, [Stdout "Error: Input file 'other.csv' not found"]).
Proof. vm_compute. reflexivity. Qed.

(** The scenario when matplotlib's calls return: status 0, and
    [plt.savefig] called once, with the output path. *)
Example main_scenario :
  let '(status, tr) :=
    main PyFloat.float_of_str draw_returns savefig_returns
      ["generate_graphs.py"; "swing.csv"; "swing.png"]%string
      (one_file "swing.csv" scenario) in
  status = 0 /\ savefig_calls tr = ["swing.png"%string] /\
  opens tr = ["swing.csv"%string].
Proof. vm_compute. repeat split. Qed.

(** The scenario when a drawing call raises: status 1, a traceback, and
    [plt.savefig] never called. *)
Example main_scenario_draw_raises :
  let '(status, tr) :=
    main PyFloat.float_of_str draw_raises savefig_returns
      ["generate_graphs.py"; "swing.csv"; "swing.png"]%string
      (one_file "swing.csv" scenario) in
  status = 1 /\ savefig_calls tr = [] /\
  last tr (Stdout "") = Traceback ValueError.
Proof. vm_compute. repeat split. Qed.

(** An input path that is a directory passes the existence test; opening it
    raises, and the process ends with a traceback, status 1. *)
Example main_directory_input :
  main PyFloat.float_of_str draw_returns savefig_returns
    ["generate_graphs.py"; "logs"; "swing.png"]%string
    (fun p => if String.eqb p "logs" then Some Directory else None) =
    (1, [OpenRead "logs"; Traceback OSError]).
Proof. vm_compute. reflexivity. Qed.

(** A file with no line at all: [next(reader)] raises [StopIteration]. *)
Example main_empty_file :
  main PyFloat.float_of_str draw_returns savefig_returns
    ["generate_graphs.py"; "swing.csv"; "swing.png"]%string
    (one_file "swing.csv" []) =
    (1, [OpenRead "swing.csv"; Traceback StopIteration]).
Proof. vm_compute. reflexivity. Qed.

(** * Further properties of the code *)

(** ** The parser *)

Section ParserExtras.

Variable py_float : string -> option float.

Lemma kept_firstn (r : row) :
  kept py_float (firstn 7 r) = kept py_float r.
Proof.
  unfold kept, parses.
  destruct r as [|f0 [|f1 [|f2 [|f3 [|f4 [|f5 [|f6 rest]]]]]]]; reflexivity.
Qed.

Lemma value_firstn (r : row) (i : nat) :
  i < 7 -> value py_float (firstn 7 r) i = value py_float r i.
Proof.
  intros Hi. unfold value.
  destruct r as [|f0 [|f1 [|f2 [|f3 [|f4 [|f5 [|f6 rest]]]]]]];
    try reflexivity.
  do 7 (destruct i as [|i]; [reflexivity|]). lia.
Qed.

Lemma dataset_of_firstn (ks : list row) :
  dataset_of py_float (map (firstn 7) ks) = dataset_of py_float ks.
Proof.
  unfold dataset_of, seconds. rewrite !map_map.
  repeat f_equal; apply map_ext; intros r; now rewrite value_firstn by lia.
Qed.

Lemma filter_kept_firstn (rows : list row) :
  filter (kept py_float) (map (firstn 7) rows) =
    map (firstn 7) (filter (kept py_float) rows).
Proof.
  induction rows as [|r rows IH]; [reflexivity|].
  cbn [map filter]. rewrite kept_firstn, IH.
  now destruct (kept py_float r).
Qed.

Lemma filter_all (rows : list row) :
  length (filter (kept py_float) rows) = length rows <->
  forallb (kept py_float) rows = true.
Proof.
  induction rows as [|r rows IH]; cbn [filter forallb length]; [tauto|].
  pose proof (filter_length_le (kept py_float) rows) as Hle.
  destruct (kept py_float r); cbn [length andb].
  - rewrite <- IH. lia.
  - split; [lia|discriminate].
Qed.

Lemma filter_kept_idem (rows : list row) :
  filter (kept py_float) (filter (kept py_float) rows) =
    filter (kept py_float) rows.
Proof.
  induction rows as [|r rows IH]; [reflexivity|].
  cbn [filter]. destruct (kept py_float r) eqn:K; [|exact IH].
  cbn [filter]. now rewrite K, IH.
Qed.

Lemma dataset_of_app (k1 k2 : list row) :
  dataset_of py_float (k1 ++ k2) =
    concat_dataset (dataset_of py_float k1) (dataset_of py_float k2).
Proof.
  unfold dataset_of, concat_dataset. now rewrite !map_app.
Qed.

End ParserExtras.

(** X2. Fields after the seventh are never read: cutting every record down
    to its first seven fields changes nothing in what the parser returns. *)
Theorem parse_ignores_extra_fields :
  forall (py_float : string -> option float) (first_line : row)
         (rows : list row),
    parse_records py_float (first_line :: map (firstn 7) rows) =
      parse_records py_float (first_line :: rows).
Proof.
  intros py_float first_line rows.
  now rewrite !parse_records_spec, filter_kept_firstn, dataset_of_firstn.
Qed.

(** X3. Parsing distributes over concatenation: the arrays of a file whose
    records are those of one file followed by those of another are, channel
    by channel, the arrays of the first followed by the arrays of the
    second. *)
Theorem parse_concatenation :
  forall (py_float : string -> option float) (h1 h2 : row)
         (rows1 rows2 : list row) (d1 d2 : dataset),
    parse_records py_float (h1 :: rows1) = Ok d1 ->
    parse_records py_float (h2 :: rows2) = Ok d2 ->
    parse_records py_float (h1 :: rows1 ++ rows2) = Ok (concat_dataset d1 d2).
Proof.
  intros py_float h1 h2 rows1 rows2 d1 d2.
  rewrite !parse_records_spec. intros [= <-] [= <-].
  now rewrite filter_app, dataset_of_app.
Qed.

Lemma parse_concatenation_witness :
  parse_records PyFloat.float_of_str (header :: tl scenario ++ tl one_malformed)
    = Ok (concat_dataset
            ([0; 1], [0; 90], [0; 0], [0; 0], [1; 0], [0; 1], [0; 0])
            ([0; 1], [0; 90], [0; 0], [0; 0], [1; 0], [0; 1], [0; 0]))%float.
Proof.
  apply (parse_concatenation PyFloat.float_of_str header header
           (tl scenario) (tl one_malformed)).
  - vm_compute. reflexivity.
  - vm_compute. reflexivity.
Defined.

(** X4. The parser returns at most one sample per record after the first
    line, and exactly one per record precisely when every such record is
    kept; removing the records that are not kept from the file beforehand
    gives the same arrays. *)
Theorem parse_sample_count :
  forall (py_float : string -> option float) (first_line : row)
         (rows : list row) (d : dataset),
    parse_records py_float (first_line :: rows) = Ok d ->
    length (times_of d) <= length rows /\
    (length (times_of d) = length rows <->
     forallb (kept py_float) rows = true) /\
    parse_records py_float (first_line :: filter (kept py_float) rows) = Ok d.
Proof.
  intros py_float first_line rows d.
  rewrite !parse_records_spec. intros [= <-].
  unfold times_of, dataset_of at 1 2. rewrite !length_map.
  split; [apply filter_length_le|]. split; [apply filter_all|].
  now rewrite filter_kept_idem.
Qed.

Lemma parse_sample_count_witness :
  2 <= 3 /\
  (2 = 3 <-> forallb (kept PyFloat.float_of_str) (tl one_malformed) = true) /\
  parse_records PyFloat.float_of_str
    (header :: filter (kept PyFloat.float_of_str) (tl one_malformed)) =
    Ok ([0; 1], [0; 90], [0; 0], [0; 0], [1; 0], [0; 1], [0; 0])%float.
Proof.
  refine (parse_sample_count PyFloat.float_of_str header (tl one_malformed)
            ([0; 1], [0; 90], [0; 0], [0; 0], [1; 0], [0; 1], [0; 0])%float _).
  vm_compute. reflexivity.
Defined.

(** X5. The first record is dropped whatever it holds: when a file starts
    with a record that would be kept, that sample is lost, and the parser
    returns one sample fewer than the file has records that parse. *)
Theorem parse_drops_first_record :
  forall (py_float : string -> option float) (r0 : row) (rows : list row),
    kept py_float r0 = true ->
    exists d,
      parse_records py_float (r0 :: rows) = Ok d /\
      d = dataset_of py_float (tl (filter (kept py_float) (r0 :: rows))) /\
      length (times_of d) + 1 = length (filter (kept py_float) (r0 :: rows)).
Proof.
  intros py_float r0 rows K. eexists. split; [apply parse_records_spec|].
  cbn [filter]. rewrite K. cbn [tl length]. split; [reflexivity|].
  unfold times_of, dataset_of. rewrite length_map. lia.
Qed.

Lemma parse_drops_first_record_witness :
  exists d,
    parse_records PyFloat.float_of_str (tl scenario) = Ok d /\
    d = dataset_of PyFloat.float_of_str
          (tl (filter (kept PyFloat.float_of_str) (tl scenario))) /\
    length (times_of d) + 1 =
      length (filter (kept PyFloat.float_of_str) (tl scenario)).
Proof.
  apply (parse_drops_first_record PyFloat.float_of_str
           ["0"; "0"; "0"; "0"; "1"; "0"; "0"]%string
           [["1000"; "90"; "0"; "0"; "0"; "1"; "0"]%string]).
  vm_compute. reflexivity.
Defined.

(** X6. The loop over the records, started from any seven lists of one
    length, never raises, leaves the lists of one length, and only appends:
    what each list held stays, in place, at its front; the lists grow by the
    number of kept records. *)
Theorem for_rows_invariant :
  forall (py_float : string -> option float) (rows : list row) (st : store),
    store_aligned st ->
    exists st',
      for_rows py_float rows st = (Ok tt, st') /\
      store_aligned st' /\
      length (times st') =
        length (times st) + length (filter (kept py_float) rows) /\
      firstn (length (times st)) (times st') = times st /\
      firstn (length (yaws st)) (yaws st') = yaws st /\
      firstn (length (pitches st)) (pitches st') = pitches st /\
      firstn (length (rolls st)) (rolls st') = rolls st /\
      firstn (length (accel_x st)) (accel_x st') = accel_x st /\
      firstn (length (accel_y st)) (accel_y st') = accel_y st /\
      firstn (length (accel_z st)) (accel_z st') = accel_z st.
Proof.
  intros py_float rows st (Hy & Hp & Hr & Hx & Hay & Hz).
  eexists. split; [apply for_rows_spec|].
  unfold store_aligned, push_all.
  cbn [times yaws pitches rolls accel_x accel_y accel_z].
  rewrite !length_app, !length_map.
  assert (P : forall a b : list float, firstn (length a) (a ++ b) = a).
  { intros a b. rewrite firstn_app, Nat.sub_diag, firstn_all.
    cbn [firstn]. apply app_nil_r. }
  repeat split; try lia; apply P.
Qed.

Lemma for_rows_invariant_witness :
  exists st',
    for_rows PyFloat.float_of_str (tl one_malformed)
      (mkStore [5] [5] [5] [5] [5] [5] [5])%float = (Ok tt, st') /\
    store_aligned st' /\
    length (times st') = 1 + 2 /\
    firstn 1 (times st') = [5]%float /\
    firstn 1 (yaws st') = [5]%float /\
    firstn 1 (pitches st') = [5]%float /\
    firstn 1 (rolls st') = [5]%float /\
    firstn 1 (accel_x st') = [5]%float /\
    firstn 1 (accel_y st') = [5]%float /\
    firstn 1 (accel_z st') = [5]%float.
Proof.
  apply (for_rows_invariant PyFloat.float_of_str (tl one_malformed)
           (mkStore [5] [5] [5] [5] [5] [5] [5])%float).
  repeat split.
Defined.

(** ** The derivation engine *)

Lemma SFmul_opp_self (prec emax : Z) (x : spec_float) :
  SFmul prec emax (SFopp x) (SFopp x) = SFmul prec emax x x.
Proof. destruct x as [[]|[]| |[] m e]; reflexivity. Qed.

Lemma mul_opp_self (x : float) : ((- x) * (- x))%float = (x * x)%float.
Proof.
  apply Prim2SF_inj. rewrite !mul_spec, opp_spec. apply SFmul_opp_self.
Qed.

Lemma square_opp (a : np.array) : np.square (map PrimFloat.opp a) = np.square a.
Proof.
  unfold np.square. rewrite map_map. apply map_ext. intros x. apply mul_opp_self.
Qed.

Lemma is_zero_spec (x : float) :
  is_zero x = match Prim2SF x with S754_zero _ => true | _ => false end.
Proof.
  unfold is_zero. rewrite eqb_spec.
  change (Prim2SF zero) with (S754_zero false).
  now destruct (Prim2SF x) as [s|[]| |[] m e].
Qed.

(** [+0] divided by anything but a zero or a NaN is a zero. *)
Lemma SFdiv_zero_l (prec emax : Z) (y : spec_float) :
  SF_is_nan y = false ->
  match y with S754_zero _ => true | _ => false end = false ->
  match SFdiv prec emax (S754_zero false) y with
  | S754_zero _ => true
  | _ => false
  end = true.
Proof. destruct y; cbn; congruence. Qed.

(** The difference quotient of a series that does not move over a pair of
    samples is a zero, as long as the time does move. *)
Lemma quotient_constant (series times : np.array) (i : nat) :
  at_ series (i + 1) = at_ series i ->
  is_finite (at_ series i) = true ->
  is_nan (at_ times (i + 1) - at_ times i)%float = false ->
  is_zero (at_ times (i + 1) - at_ times i)%float = false ->
  is_zero (quotient series times i) = true.
Proof.
  unfold quotient. intros -> Hf Hn Hz.
  rewrite (sub_diag_finite _ Hf).
  rewrite is_nan_spec in Hn. rewrite is_zero_spec in Hz.
  rewrite is_zero_spec, div_spec.
  change (Prim2SF zero) with (S754_zero false).
  now apply SFdiv_zero_l.
Qed.

Lemma broadcast_mismatch (f : float -> float -> float) (a b : np.array) :
  length a <> length b -> length a <> 1 -> length b <> 1 ->
  np.broadcast f a b = Raise ValueError.
Proof.
  intros Hab Ha Hb. unfold np.broadcast.
  apply Nat.eqb_neq in Hab. rewrite Hab.
  destruct a as [|x [|x' a]], b as [|y [|y' b]]; cbn [length] in *;
    try reflexivity; congruence.
Qed.

(** X7. Net acceleration does not depend on the sign of any axis: negating
    every value of one acceleration channel gives the same result, entry for
    entry and exception for exception. *)
Theorem net_acceleration_sign_invariant :
  forall ax ay az : np.array,
    calculate_net_acceleration (map PrimFloat.opp ax) ay az =
      calculate_net_acceleration ax ay az /\
    calculate_net_acceleration ax (map PrimFloat.opp ay) az =
      calculate_net_acceleration ax ay az /\
    calculate_net_acceleration ax ay (map PrimFloat.opp az) =
      calculate_net_acceleration ax ay az.
Proof.
  intros ax ay az. unfold calculate_net_acceleration.
  now rewrite !square_opp.
Qed.

(** X8. The engine does not accept series of different lengths: net
    acceleration of two channels of different lengths, neither of length 1,
    and net jerk of a series and a time array of different lengths, both
    longer than two, raise [ValueError]. *)
Theorem engine_rejects_length_mismatch :
  forall (ax ay az net_acc times : np.array),
    (length ax <> length ay -> length ax <> 1 -> length ay <> 1 ->
     calculate_net_acceleration ax ay az = Raise ValueError) /\
    (length net_acc <> length times ->
     2 < length net_acc -> 2 < length times ->
     calculate_net_jerk net_acc times = Raise ValueError).
Proof.
  intros ax ay az net_acc times. split.
  - intros Hab Ha Hb. unfold calculate_net_acceleration, np.add.
    rewrite broadcast_mismatch; [reflexivity|..];
      unfold np.square; rewrite !length_map; assumption.
  - intros Hab Ha Hb. unfold calculate_net_jerk, np.divide.
    rewrite broadcast_mismatch; [reflexivity|..]; rewrite !diff_length; lia.
Qed.

Lemma engine_rejects_length_mismatch_witness :
  calculate_net_acceleration [1; 2; 3]%float [1; 2]%float [1; 2; 3]%float =
    Raise ValueError /\
  calculate_net_jerk [1; 2; 3]%float [0; 1; 2; 3]%float = Raise ValueError.
Proof.
  split.
  - apply (proj1 (engine_rejects_length_mismatch
                    [1; 2; 3] [1; 2] [1; 2; 3] [] [])%float);
      cbn [length]; lia.
  - apply (proj2 (engine_rejects_length_mismatch
                    [] [] [] [1; 2; 3] [0; 1; 2; 3])%float);
      cbn [length]; lia.
Defined.

(** X9. Where a parsed angle does not change between two adjacent samples
    and is finite, and the time does change (the time difference is neither
    a zero nor a NaN), the angular rate of that pair is a zero; the same for
    the three angles. *)
Theorem constant_angle_zero_rate :
  forall (py_float : string -> option float) (fs : filesystem)
         (filename : string) (times yaws pitches rolls ax ay az : np.array)
         (i : nat),
    parse_csv py_float fs filename =
      Ok (times, yaws, pitches, rolls, ax, ay, az) ->
    i + 1 < length times ->
    is_nan (at_ times (i + 1) - at_ times i)%float = false ->
    is_zero (at_ times (i + 1) - at_ times i)%float = false ->
    exists yaw_rate pitch_rate roll_rate deriv_times,
      calculate_angular_velocities yaws pitches rolls times =
        Ok (yaw_rate, pitch_rate, roll_rate, deriv_times) /\
      (at_ yaws (i + 1) = at_ yaws i -> is_finite (at_ yaws i) = true ->
       is_zero (at_ yaw_rate i) = true) /\
      (at_ pitches (i + 1) = at_ pitches i ->
       is_finite (at_ pitches i) = true ->
       is_zero (at_ pitch_rate i) = true) /\
      (at_ rolls (i + 1) = at_ rolls i -> is_finite (at_ rolls i) = true ->
       is_zero (at_ roll_rate i) = true).
Proof.
  intros py_float fs filename times yaws pitches rolls ax ay az i H Hi Hn Hz.
  destruct (engine_spec times yaws pitches rolls ax ay az)
    as (net & jerk & yr & pr & rr & _ & _ & Ha & _ & _ & Hq).
  { exact (parsed_aligned _ _ _ _ H). }
  destruct (Hq i Hi) as (_ & Qy & Qp & Qr).
  exists yr, pr, rr, (np.from1 times). rewrite Qy, Qp, Qr.
  split; [exact Ha|].
  repeat split; intros E F; now apply quotient_constant.
Qed.

Lemma constant_angle_zero_rate_witness :
  exists yaw_rate pitch_rate roll_rate deriv_times,
    calculate_angular_velocities [0; 90]%float [0; 0]%float [0; 0]%float
      [0; 1]%float = Ok (yaw_rate, pitch_rate, roll_rate, deriv_times) /\
    (at_ [0; 90]%float (0 + 1) = at_ [0; 90]%float 0 ->
     is_finite (at_ [0; 90]%float 0) = true ->
     is_zero (at_ yaw_rate 0) = true) /\
    (at_ [0; 0]%float (0 + 1) = at_ [0; 0]%float 0 ->
     is_finite (at_ [0; 0]%float 0) = true ->
     is_zero (at_ pitch_rate 0) = true) /\
    (at_ [0; 0]%float (0 + 1) = at_ [0; 0]%float 0 ->
     is_finite (at_ [0; 0]%float 0) = true ->
     is_zero (at_ roll_rate 0) = true).
Proof.
  refine (constant_angle_zero_rate PyFloat.float_of_str
            (one_file "swing.csv" scenario) "swing.csv"
            [0; 1] [0; 90] [0; 0] [0; 0] [1; 0] [0; 1] [0; 0] 0 _ _ _ _)%float.
  - vm_compute. reflexivity.
  - cbn. lia.
  - reflexivity.
  - reflexivity.
Defined.

(** ** Lines 84-92 and the figure *)

(** What lines 84-92 return, whenever they return, on arrays of one
    length. *)
Lemma derive_shape (times yaws pitches rolls ax ay az : np.array) (v : derived) :
  aligned (length times) (times, yaws, pitches, rolls, ax, ay, az) ->
  derive (times, yaws, pitches, rolls, ax, ay, az) = Ok v ->
  1 <= length times /\
  length (d_net_acc v) = length times /\
  length (d_jerk v) = length times - 1 /\
  length (d_yaw_rate v) = length times - 1 /\
  length (d_pitch_rate v) = length times - 1 /\
  length (d_roll_rate v) = length times - 1 /\
  d_times_norm v = np.sub_scalar times (at_ times 0) /\
  d_jerk_times_norm v = np.sub_scalar (np.from1 times) (at_ times 0) /\
  d_deriv_times_norm v = np.sub_scalar (np.from1 times) (at_ times 0).
Proof.
  intros Ha Hd.
  destruct (engine_spec times yaws pitches rolls ax ay az Ha)
    as (net & jerk & yr & pr & rr & H1 & H2 & H3 & (L0 & L1 & L2 & L3 & L4) & _).
  unfold derive in Hd. rewrite H1 in Hd. cbn [rbind] in Hd.
  rewrite H2 in Hd. cbn [rbind] in Hd. rewrite H3 in Hd. cbn [rbind] in Hd.
  destruct times as [|t0 times]; [discriminate|].
  cbn [np.first rbind] in Hd. injection Hd as <-.
  cbn [d_net_acc d_jerk d_yaw_rate d_pitch_rate d_roll_rate d_times_norm
       d_jerk_times_norm d_deriv_times_norm].
  repeat split; try assumption. cbn [length]. lia.
Qed.

(** X10. On arrays of one length, lines 84-92 of [generate_graphs] return
    exactly when there is at least one sample; on the empty dataset
    [times[0]] raises [IndexError], which is what the test on line 79 keeps
    from happening. *)
Theorem derive_needs_a_sample :
  forall times yaws pitches rolls ax ay az : np.array,
    aligned (length times) (times, yaws, pitches, rolls, ax, ay, az) ->
    ((exists v, derive (times, yaws, pitches, rolls, ax, ay, az) = Ok v) <->
     1 <= length times) /\
    (length times = 0 ->
     derive (times, yaws, pitches, rolls, ax, ay, az) = Raise IndexError).
Proof.
  intros times yaws pitches rolls ax ay az Ha.
  assert (E : length times = 0 ->
              derive (times, yaws, pitches, rolls, ax, ay, az) =
                Raise IndexError).
  { intros L. destruct Ha as (_ & Hy & Hp & Hr & Hx & Hay & Hz).
    rewrite L in *.
    apply length_zero_iff_nil in L, Hy, Hp, Hr, Hx, Hay, Hz. subst.
    reflexivity. }
  split; [split|exact E].
  - intros [v Hv]. now destruct (derive_shape _ _ _ _ _ _ _ _ Ha Hv).
  - intros Hn.
    destruct (derive_spec times yaws pitches rolls ax ay az Ha Hn)
      as (net & jerk & yr & pr & rr & _ & _ & _ & Hd).
    eauto.
Qed.

Lemma derive_needs_a_sample_witness :
  ((exists v,
       derive ([0; 1], [0; 90], [0; 0], [0; 0], [1; 0], [0; 1], [0; 0])%float =
         Ok v) <-> 1 <= 2) /\
  (2 = 0 ->
   derive ([0; 1], [0; 90], [0; 0], [0; 0], [1; 0], [0; 1], [0; 0])%float =
     Raise IndexError).
Proof.
  apply (derive_needs_a_sample
           [0; 1] [0; 90] [0; 0] [0; 0] [1; 0] [0; 1] [0; 0])%float.
  repeat split.
Defined.



(** X12. Whenever a parsed dataset is drawn, the normalised time axis of the
    derivative charts is the normalised sample time axis without its first
    point: the jerk and rate charts share the time scale of the other
    charts and start at the second sample. *)
Theorem derivative_axis_is_tail_of_sample_axis :
  forall (py_float : string -> option float) (fs : filesystem)
         (filename : string) (times yaws pitches rolls ax ay az : np.array)
         (v : derived),
    parse_csv py_float fs filename =
      Ok (times, yaws, pitches, rolls, ax, ay, az) ->
    derive (times, yaws, pitches, rolls, ax, ay, az) = Ok v ->
    d_jerk_times_norm v = tl (d_times_norm v) /\
    d_deriv_times_norm v = tl (d_times_norm v) /\
    length (d_jerk_times_norm v) + 1 = length (d_times_norm v).
Proof.
  intros py_float fs filename times yaws pitches rolls ax ay az v H Hd.
  pose proof (parsed_aligned _ _ _ _ H) as Ha. cbn beta iota in Ha.
  destruct (derive_shape _ _ _ _ _ _ _ _ Ha Hd)
    as (Hn & _ & _ & _ & _ & _ & -> & -> & ->).
  unfold np.sub_scalar, np.from1.
  destruct times as [|t0 times]; [cbn in Hn; lia|].
  cbn [tl map length]. repeat split. lia.
Qed.

Lemma derivative_axis_is_tail_of_sample_axis_witness :
  exists v,
    derive ([0; 1], [0; 90], [0; 0], [0; 0], [1; 0], [0; 1], [0; 0])%float =
      Ok v /\
    d_jerk_times_norm v = tl (d_times_norm v) /\
    d_deriv_times_norm v = tl (d_times_norm v) /\
    length (d_jerk_times_norm v) + 1 = length (d_times_norm v).
Proof.
  eexists. split; [vm_compute; reflexivity|].
  refine (derivative_axis_is_tail_of_sample_axis PyFloat.float_of_str
            (one_file "swing.csv" scenario) "swing.csv"
            [0; 1] [0; 90] [0; 0] [0; 0] [1; 0] [0; 1] [0; 0] _ _ _)%float.
  - vm_compute. reflexivity.
  - vm_compute. reflexivity.
Defined.

(** X13. Whenever a parsed dataset is drawn, the figure has five charts of
    1, 1, 3, 3 and 3 lines, and every line and every filled area pairs an
    x-array and a y-array of one length, as [plot] and [fill_between]
    require. *)
Theorem charts_are_well_formed :
  forall (py_float : string -> option float) (fs : filesystem)
         (filename : string) (times yaws pitches rolls ax ay az : np.array)
         (v : derived),
    parse_csv py_float fs filename =
      Ok (times, yaws, pitches, rolls, ax, ay, az) ->
    derive (times, yaws, pitches, rolls, ax, ay, az) = Ok v ->
    Forall subplot_ok (charts (times, yaws, pitches, rolls, ax, ay, az) v) /\
    map (fun sp => length (sp_lines sp))
        (charts (times, yaws, pitches, rolls, ax, ay, az) v) = [1; 1; 3; 3; 3].
Proof.
  intros py_float fs filename times yaws pitches rolls ax ay az v H Hd.
  pose proof (parsed_aligned _ _ _ _ H) as Ha. cbn beta iota in Ha.
  destruct (derive_shape _ _ _ _ _ _ _ _ Ha Hd)
    as (Hn & L0 & L1 & L2 & L3 & L4 & T0 & T1 & T2).
  destruct Ha as (_ & Hy & Hp & Hr & Hx & Hay & Hz).
  assert (N0 : length (d_times_norm v) = length times)
    by (rewrite T0; apply length_map).
  assert (N1 : length (d_jerk_times_norm v) = length times - 1)
    by (rewrite T1; unfold np.sub_scalar;
        rewrite length_map; apply from1_length).
  assert (N2 : length (d_deriv_times_norm v) = length times - 1)
    by (rewrite T2; unfold np.sub_scalar;
        rewrite length_map; apply from1_length).
  split; [|reflexivity].
  unfold charts, subplot_ok, line_ok.
  repeat (apply Forall_cons || apply Forall_nil || split);
    cbn [sp_lines sp_fill_between line_x line_y fst snd];
    repeat (apply Forall_cons || apply Forall_nil);
    cbn [line_x line_y fst snd]; lia.
Qed.

Lemma charts_are_well_formed_witness :
  exists v,
    derive ([0; 1], [0; 90], [0; 0], [0; 0], [1; 0], [0; 1], [0; 0])%float =
      Ok v /\
    Forall subplot_ok
      (charts ([0; 1], [0; 90], [0; 0], [0; 0], [1; 0], [0; 1], [0; 0])%float
         v) /\
    map (fun sp => length (sp_lines sp))
      (charts ([0; 1], [0; 90], [0; 0], [0; 0], [1; 0], [0; 1], [0; 0])%float
         v) = [1; 1; 3; 3; 3].
Proof.
  eexists. split; [vm_compute; reflexivity|].
  refine (charts_are_well_formed PyFloat.float_of_str
            (one_file "swing.csv" scenario) "swing.csv"
            [0; 1] [0; 90] [0; 0] [0; 0] [1; 0] [0; 1] [0; 0] _ _ _)%float.
  - vm_compute. reflexivity.
  - vm_compute. reflexivity.
Defined.

(** ** The process *)

(** X14. Called with anything but a program name and two arguments, the
    process prints the usage line and exits with status 1, whatever the file
    system holds: it looks at no path. *)
Theorem main_usage :
  forall (py_float : string -> option float)
         (plt_draw : figure -> result unit)
         (plt_savefig : string -> figure -> result unit)
         (argv : list string) (fs : filesystem),
    length argv <> 3 ->
    main py_float plt_draw plt_savefig argv fs = (1, [Stdout usage]).
Proof.
  intros py_float plt_draw plt_savefig argv fs H.
  destruct argv as [|a0 [|a1 [|a2 [|a3 rest]]]]; try reflexivity.
  now contradiction H.
Qed.

Lemma main_usage_witness :
  main PyFloat.float_of_str draw_returns savefig_returns
    ["generate_graphs.py"; "swing.csv"]%string
    (one_file "swing.csv" scenario) = (1, [Stdout usage]).
Proof.
  apply main_usage. cbn [length]. lia.
Defined.



(** X16. Whatever the arguments, the file system and matplotlib do, the exit
    status is 0 or 1, and it is 0 only after [plt.savefig] was called.  The
    program calls [plt.savefig] at most once, and only with its second
    argument as the file name; it opens at most one file for reading, and
    only the path given as its first argument. *)
Theorem main_effects_bounded :
  forall (py_float : string -> option float)
         (plt_draw : figure -> result unit)
         (plt_savefig : string -> figure -> result unit)
         (argv : list string) (fs : filesystem)
         (status : nat) (tr : list event),
    main py_float plt_draw plt_savefig argv fs = (status, tr) ->
    (status = 0 \/ status = 1) /\
    (status = 0 ->
     exists p, nth_error argv 2 = Some p /\ savefig_calls tr = [p]) /\
    (forall p, In p (savefig_calls tr) ->
       length argv = 3 /\ nth_error argv 2 = Some p /\
       savefig_calls tr = [p]) /\
    (forall p, In p (opens tr) ->
       length argv = 3 /\ nth_error argv 1 = Some p /\ opens tr = [p]).
Proof.
  intros py_float plt_draw plt_savefig argv fs status tr.
  assert (Q : forall s (t : list event),
              (s = 0 \/ s = 1) ->
              (s = 0 -> exists p, nth_error argv 2 = Some p /\
                                  savefig_calls t = [p]) ->
              (savefig_calls t = [] \/
               (length argv = 3 /\ exists p, nth_error argv 2 = Some p /\
                                             savefig_calls t = [p])) ->
              (opens t = [] \/
               (length argv = 3 /\ exists p, nth_error argv 1 = Some p /\
                                             opens t = [p])) ->
              (s = 0 \/ s = 1) /\
              (s = 0 -> exists p, nth_error argv 2 = Some p /\
                                  savefig_calls t = [p]) /\
              (forall p, In p (savefig_calls t) ->
                 length argv = 3 /\ nth_error argv 2 = Some p /\
                 savefig_calls t = [p]) /\
              (forall p, In p (opens t) ->
                 length argv = 3 /\ nth_error argv 1 = Some p /\
                 opens t = [p])).
  { intros s t H1 H2 H3 H4. split; [exact H1|]. split; [exact H2|]. split.
    - intros p Hp. destruct H3 as [E | (L & q & Hq & E)];
        rewrite E in Hp |- *; [contradiction|].
      destruct Hp as [<- | []]. auto.
    - intros p Hp. destruct H4 as [E | (L & q & Hq & E)];
        rewrite E in Hp |- *; [contradiction|].
      destruct Hp as [<- | []]. auto. }
  assert (U : (status, tr) = (1, [Stdout usage]) ->
              (status = 0 \/ status = 1) /\
              (status = 0 -> exists p, nth_error argv 2 = Some p /\
                                       savefig_calls tr = [p]) /\
              (forall p, In p (savefig_calls tr) ->
                 length argv = 3 /\ nth_error argv 2 = Some p /\
                 savefig_calls tr = [p]) /\
              (forall p, In p (opens tr) ->
                 length argv = 3 /\ nth_error argv 1 = Some p /\
                 opens tr = [p])).
  { intros [= -> ->]. apply Q; auto. discriminate. }
  destruct argv as [|prog [|input_file [|output_file [|a3 rest]]]];
    try (intros H; apply U; now rewrite <- H).
  clear U. unfold main.
  destruct (fs input_file) as [n|].
  - destruct (generate_graphs py_float plt_draw plt_savefig fs input_file
                output_file) as [r tr'] eqn:G.
    destruct (generate_graphs_effects _ _ _ _ _ _ _ _ G) as (O & W & Wt & _).
    assert (Wa : forall e,
               savefig_calls (tr' ++ [Traceback e]) = savefig_calls tr')
      by (intros e; unfold savefig_calls; rewrite flat_map_app;
          apply app_nil_r).
    assert (Oa : forall e, opens (tr' ++ [Traceback e]) = opens tr')
      by (intros e; unfold opens; rewrite flat_map_app; apply app_nil_r).
    destruct r as [[|]|e]; intros [= <- <-]; apply Q;
      rewrite ?Wa, ?Oa, ?O; cbn [length nth_error]; auto;
      try discriminate.
    + intros _. exists output_file. split; [reflexivity|]. now apply Wt.
    + destruct W as [-> | ->]; [now left|right; eauto].
    + right. eauto.
    + destruct W as [-> | ->]; [now left|right; eauto].
    + right. eauto.
    + destruct W as [-> | ->]; [now left|right; eauto].
    + right. eauto.
  - intros [= <- <-]. apply Q; cbn; auto. discriminate.
Qed.

Lemma main_effects_bounded_witness :
  (0 = 0 \/ 0 = 1) /\
  (0 = 0 ->
   exists p,
     Some "swing.png"%string = Some p /\
     savefig_calls
       (snd (main PyFloat.float_of_str draw_returns savefig_returns
               ["generate_graphs.py"; "swing.csv"; "swing.png"]%string
               (one_file "swing.csv" scenario))) = [p]) /\
  (forall p,
     In p (savefig_calls
             (snd (main PyFloat.float_of_str draw_returns savefig_returns
                     ["generate_graphs.py"; "swing.csv"; "swing.png"]%string
                     (one_file "swing.csv" scenario)))) ->
     3 = 3 /\ Some "swing.png"%string = Some p /\
     savefig_calls
       (snd (main PyFloat.float_of_str draw_returns savefig_returns
               ["generate_graphs.py"; "swing.csv"; "swing.png"]%string
               (one_file "swing.csv" scenario))) = [p]) /\
  (forall p,
     In p (opens
             (snd (main PyFloat.float_of_str draw_returns savefig_returns
                     ["generate_graphs.py"; "swing.csv"; "swing.png"]%string
                     (one_file "swing.csv" scenario)))) ->
     3 = 3 /\ Some "swing.csv"%string = Some p /\
     opens
       (snd (main PyFloat.float_of_str draw_returns savefig_returns
               ["generate_graphs.py"; "swing.csv"; "swing.png"]%string
               (one_file "swing.csv" scenario))) = [p]).
Proof.
  refine (main_effects_bounded PyFloat.float_of_str draw_returns
            savefig_returns
            ["generate_graphs.py"; "swing.csv"; "swing.png"]%string
            (one_file "swing.csv" scenario) 0 _ _).
  vm_compute. reflexivity.
Defined.
